(** * Larry Navigator: agents, fallbacks and consolidation

    A shallow embedding of the diagnostic pipeline of [src/agents] and of the
    framework catalog of [src/config/frameworks.py], with the properties the
    specification states about them.

    Conventions of the embedding.
    - An agent method performs its inference call inside a [try] block and
      decodes the answer with [json.loads].  The call and the decoding are
      the only effect of the method; their joint outcome is an argument of
      the embedded function: either the [try] block raised, with [str(e)]
      the message, or the answer was decoded to a value.
    - A value decoded by [json.loads] is a [json]; a Python dict built by the
      code from typed parts is a record; a missing key read through
      [d.get(k, default)] is an [option] field.
    - A Python float literal is the rational number it denotes. *)

From Stdlib Require Import String Ascii List ZArith QArith Permutation Lia Bool.
From stdpp Require Import gmap strings list pretty.

Import ListNotations.
Set Warnings "-register-all".
Local Open Scope string_scope.
Local Open Scope list_scope.

(** ** Python values and exceptions *)

Module Py.

(** Values produced by [json.loads].  A dict keeps its keys in insertion
    order, as Python's does. *)
Inductive json : Type :=
| JNull
| JBool (b : bool)
| JNum (q : Q)
| JStr (s : string)
| JArr (items : list json)
| JObj (fields : list (string * json)).

(** A computation that returns a value or raises an exception, the
    exception being identified by its message. *)
Inductive py (A : Type) : Type :=
| Ret (a : A)
| Raise (msg : string).
Arguments Ret {A} a.
Arguments Raise {A} msg.

Definition bind {A B : Type} (c : py A) (k : A -> py B) : py B :=
  match c with
  | Ret a => k a
  | Raise msg => Raise msg
  end.

(** [try: c  except Exception as e: handler(str(e))] *)
Definition try_except {A : Type} (c : py A) (handler : string -> py A) : py A :=
  match c with
  | Ret a => Ret a
  | Raise msg => handler msg
  end.

Definition returns {A : Type} (c : py A) : bool :=
  match c with Ret _ => true | Raise _ => false end.

Fixpoint assoc (k : string) (m : list (string * json)) : option json :=
  match m with
  | [] => None
  | (k', v) :: m' => if String.eqb k k' then Some v else assoc k m'
  end.


(** [d.get(k, default)]; only a dict has the method. *)
Definition get (d : json) (k : string) (default : json) : py json :=
  match d with
  | JObj m => Ret (match assoc k m with Some v => v | None => default end)
  | _ => Raise "AttributeError: object has no attribute 'get'"
  end.

(** [x == "literal"] *)
Definition eq_str (x : json) (lit : string) : bool :=
  match x with
  | JStr s => String.eqb s lit
  | _ => false
  end.

(** [x in ["a", "b", ...]] for a list of string literals. *)
Definition in_strs (x : json) (lits : list string) : bool :=
  existsb (eq_str x) lits.




(** [len(x)] *)
Definition len (x : json) : py nat :=
  match x with
  | JArr items => Ret (length items)
  | JObj m => Ret (length m)
  | JStr s => Ret (String.length s)
  | _ => Raise "TypeError: object has no len()"
  end.


(** Reading a path of keys in nested dicts. *)
Fixpoint at_path (path : list string) (x : json) : option json :=
  match path with
  | [] => Some x
  | k :: path' =>
      match x with
      | JObj m => match assoc k m with
                  | Some v => at_path path' v
                  | None => None
                  end
      | _ => None
      end
  end.

Definition is_obj (x : json) : bool :=
  match x with JObj _ => true | _ => false end.

Fixpoint map_string (f : ascii -> ascii) (s : string) : string :=
  match s with
  | EmptyString => EmptyString
  | String c s' => String (f c) (map_string f s')
  end.

(** [s.lower()] on ASCII text. *)
Definition lower (s : string) : string :=
  map_string
    (fun c => let n := nat_of_ascii c in
              if (65 <=? n)%nat && (n <=? 90)%nat then ascii_of_nat (n + 32) else c)
    s.

(** [s.replace(a, b)] for one-character [a] and [b]. *)
Definition replace (a b : ascii) (s : string) : string :=
  map_string (fun c => if Ascii.eqb c a then b else c) s.

(** [str(x)] inside an f-string for a value that may be [None]. *)
Definition str_of (x : option string) : string :=
  match x with Some s => s | None => "None" end.

End Py.

Export Py.

(** Sequencing is written [x ← c; k]. *)
#[global] Instance py_ret : MRet py := @Ret.
#[global] Instance py_bind : MBind py := fun A B k c => Py.bind c k.
#[global] Instance py_fmap : FMap py := fun A B f c => Py.bind c (fun a => Ret (f a)).

(** The outcome of the body of an agent's [try] block up to and including
    [json.loads]. *)
Inductive upstream : Type :=
| Raised (e : string)
| Parsed (result : json).

(** ** The four classifier agents *)

Module Classifiers.

(** The conversation and the context of an agent only feed the prompt of
    its inference call; the value an agent returns is determined by the
    outcome [u] of that call. *)

(** [DefinitionClassifier.classify] *)
Definition DefinitionClassifier_classify (u : upstream) : json :=
  match u with
  | Parsed result => result
  | Raised e =>
      JObj [("definition_level", JStr "undefined");
            ("confidence", JNum 0.3);
            ("evidence", JArr []);
            ("reasoning", JStr ("Unable to classify: " +:+ e))]
  end.

(** [ComplexityAssessor.assess] *)
Definition ComplexityAssessor_assess (u : upstream) : json :=
  match u with
  | Parsed result => result
  | Raised e =>
      JObj [("complexity_level", JStr "complex");
            ("confidence", JNum 0.3);
            ("evidence", JArr []);
            ("reasoning", JStr ("Unable to assess: " +:+ e))]
  end.

(** [RiskUncertaintyEvaluator.evaluate] *)
Definition RiskUncertaintyEvaluator_evaluate (u : upstream) : json :=
  match u with
  | Parsed result => result
  | Raised e =>
      JObj [("position", JNum 0.5);
            ("label", JStr "balanced");
            ("confidence", JNum 0.3);
            ("evidence", JArr []);
            ("reasoning", JStr ("Unable to evaluate: " +:+ e))]
  end.

(** [WicknessClassifier.classify] *)
Definition WicknessClassifier_classify (u : upstream) : json :=
  match u with
  | Parsed result => result
  | Raised e =>
      JObj [("wickedness_level", JStr "messy");
            ("confidence", JNum 0.3);
            ("wicked_characteristics", JArr []);
            ("evidence", JArr []);
            ("reasoning", JStr ("Unable to classify: " +:+ e))]
  end.

End Classifiers.

(** ** The diagnosis consolidator *)

Module Diagnosis.
Import Classifiers.

(** A message of the conversation. *)
Record Message : Type := {
  role : string;
  content : string
}.

(** The icon that precedes the research prompt, as the bytes of the
    source file. *)
Definition research_icon : string :=
  string_of_list_ascii
    (map ascii_of_nat [239; 163; 191; 195; 188; 195; 174; 195; 167])%nat.

Definition research_prompt_text : string :=
  research_icon +:+ " Research this problem".


(** The [if]/[elif] chain of [_fallback_consolidation]: profile name,
    approach and framework names. *)
Definition profile_of_levels (def_level comp_level wick_level : json)
  : string * string * list string :=
  if eq_str def_level "undefined" && in_strs comp_level ["complex"; "chaotic"] then
    ("Early Exploration", "Sense-making",
     ["Beautiful Questions"; "Problem Discovery"])
  else if eq_str def_level "well-defined" && eq_str comp_level "simple" then
    ("Ready to Execute", "Execution",
     ["Solution Validation"; "MVP Testing"])
  else if eq_str def_level "ill-defined" && eq_str comp_level "complicated" then
    ("Needs Analysis", "Analysis",
     ["Root Cause Analysis"; "Hypothesis Testing"])
  else if in_strs wick_level ["complex"; "wicked"] then
    ("Systemic Challenge", "Experimentation",
     ["Systems Thinking"; "Stakeholder Mapping"])
  else
    ("Innovation Challenge", "Analysis",
     ["Design Thinking"; "Jobs to Be Done"]).

(** [DiagnosisConsolidator._fallback_consolidation]; the [error] argument
    is not used by the source either. *)
Definition _fallback_consolidation
  (definition complexity risk wickedness : json) (error : string) : py json :=
  def_level ← get definition "definition_level" (JStr "undefined");
  comp_level ← get complexity "complexity_level" (JStr "complex");
  risk_pos ← get risk "position" (JNum 0.5);
  wick_level ← get wickedness "wickedness_level" (JStr "messy");
  let '(profile_name, approach, frameworks) :=
    profile_of_levels def_level comp_level wick_level in
  def_conf ← get definition "confidence" (JNum 0.5);
  comp_conf ← get complexity "confidence" (JNum 0.5);
  risk_label ← get risk "label" (JStr "balanced");
  characteristics ← get wickedness "wicked_characteristics" (JArr []);
  count ← len characteristics;
  Ret (JObj [
    ("profile", JObj [
      ("name", JStr profile_name);
      ("summary", JStr "Based on current analysis of your challenge.");
      ("diagnosis", JObj [
        ("definition", JObj [("level", def_level); ("confidence", def_conf)]);
        ("complexity", JObj [("level", comp_level); ("confidence", comp_conf)]);
        ("knowability", JObj [("position", risk_pos); ("label", risk_label)]);
        ("wickedness", JObj [("level", wick_level);
                             ("characteristics_count",
                              JNum (inject_Z (Z.of_nat count)))])]);
      ("overall_difficulty", JStr "medium");
      ("recommended_approach", JStr approach);
      ("framework_matches", JArr (map JStr frameworks))]);
    ("research", JObj [
      ("recommended",
       JBool (eq_str def_level "undefined"
              || in_strs wick_level ["complex"; "wicked"]));
      ("urgency",
       JStr (if eq_str def_level "undefined" then "medium" else "low"));
      ("reason", JStr "Additional context would help clarify the problem");
      ("suggested_focus", JArr [JStr "Market validation"; JStr "Similar cases"])]);
    ("ui_updates", JObj [
      ("definition", def_level);
      ("complexity", comp_level);
      ("risk_uncertainty", risk_pos);
      ("wickedness", wick_level);
      ("show_research_prompt", JBool (eq_str def_level "undefined"));
      ("research_prompt_text", JStr research_prompt_text)])]).





End Diagnosis.

(** ** The framework catalog *)

Module Frameworks.

(** The dataclass [FrameworkTemplate]; [output_structure] keeps the order
    of its keys. *)
Record FrameworkTemplate : Type := {
  title : string;
  definition : string;
  framework_type : string;
  complexity_fit : list string;
  phase : string;
  required_concepts : list string;
  when_to_use : string;
  key_questions : list string;
  output_structure : list (string * string)
}.

Definition PHASE_1_FRAMEWORKS : gmap string FrameworkTemplate :=
  list_to_map [
  ("jobs_to_be_done", {|
    title := "Jobs-To-Be-Done (JTBD)";
    definition := "Focus on the underlying job customers are trying to accomplish, not the product they're using.";
    framework_type := "ill-defined";
    complexity_fit := ["complicated"; "complex"];
    phase := "discovery";
    required_concepts :=
      ["functional job";
       "emotional job";
       "social job";
       "job executor";
       "circumstance"];
    when_to_use := "When you need to understand WHY customers behave the way they do, not just WHAT they do.";
    key_questions :=
      ["What job is the customer trying to get done?";
       "What are the functional, emotional, and social dimensions?";
       "What circumstances trigger the need for this job?";
       "What alternatives do they currently use?";
       "What pain points exist in current solutions?"];
    output_structure :=
      [("job_statement", "When [situation], I want to [motivation], so I can [outcome]");
       ("job_dimensions", "Functional / Emotional / Social analysis");
       ("pain_points", "Current solution gaps");
       ("opportunities", "Unmet needs to address")]
  |});
  ("reverse_salience", {|
    title := "Reverse Salience";
    definition := "Identify what's NOT being said, what's missing, what's being avoided in the problem space.";
    framework_type := "undefined";
    complexity_fit := ["complex"; "chaotic"];
    phase := "discovery";
    required_concepts :=
      ["absence";
       "blind spots";
       "assumptions";
       "taboos";
       "unspoken constraints"];
    when_to_use := "When the problem feels stuck or when obvious solutions have failed.";
    key_questions :=
      ["What's NOT being discussed in this space?";
       "What assumptions are everyone making?";
       "What questions are considered 'off limits'?";
       "What would a naive outsider ask?";
       "What's the elephant in the room?"];
    output_structure :=
      [("hidden_assumptions", "Assumptions being made");
       ("blind_spots", "What's being overlooked");
       ("taboo_questions", "Questions not being asked");
       ("reframe", "New perspective on the problem")]
  |});
  ("trending_to_absurd", {|
    title := "Trending to the Absurd";
    definition := "Extrapolate current trends to extreme conclusions to reveal hidden implications.";
    framework_type := "undefined";
    complexity_fit := ["complex"; "chaotic"];
    phase := "discovery";
    required_concepts :=
      ["trend";
       "extrapolation";
       "limiting factor";
       "inflection point";
       "absurdity"];
    when_to_use := "When exploring long-term implications or challenging conventional wisdom.";
    key_questions :=
      ["If this trend continues, what happens in 10 years?";
       "What would stop this trend?";
       "What's the logical extreme?";
       "At what point does it become absurd?";
       "What does the absurdity reveal?"];
    output_structure :=
      [("current_trend", "Observable pattern");
       ("extrapolation", "Where it leads");
       ("absurd_endpoint", "Logical extreme");
       ("insight", "What this reveals")]
  |});
  ("scenario_planning", {|
    title := "Scenario Planning";
    definition := "Develop multiple plausible futures to prepare for uncertainty.";
    framework_type := "undefined";
    complexity_fit := ["complex"; "chaotic"];
    phase := "discovery";
    required_concepts :=
      ["drivers of change";
       "critical uncertainties";
       "scenario matrix";
       "implications";
       "signposts"];
    when_to_use := "When facing high uncertainty and need to prepare for multiple futures.";
    key_questions :=
      ["What are the key drivers of change?";
       "What are the critical uncertainties?";
       "What are 2-4 plausible future scenarios?";
       "What are the implications of each?";
       "What would signal each scenario is unfolding?"];
    output_structure :=
      [("drivers", "Forces shaping the future");
       ("uncertainties", "Key unknowns");
       ("scenarios", "2-4 distinct futures");
       ("implications", "What each means for you")]
  |});
  ("process_mapping", {|
    title := "Process Mapping";
    definition := "Visualize the current state of a process to identify pain points and opportunities.";
    framework_type := "ill-defined";
    complexity_fit := ["simple"; "complicated"];
    phase := "discovery";
    required_concepts :=
      ["steps";
       "actors";
       "inputs/outputs";
       "pain points";
       "decision points"];
    when_to_use := "When the problem involves an existing process with friction or inefficiency.";
    key_questions :=
      ["What are all the steps in the current process?";
       "Who is involved at each step?";
       "Where does friction occur?";
       "What causes delays or errors?";
       "Which steps add value vs. waste?"];
    output_structure :=
      [("process_steps", "Sequential flow");
       ("actors", "Who does what");
       ("pain_points", "Where friction occurs");
       ("waste", "Non-value-adding activities")]
  |});
  ("six_thinking_hats", {|
    title := "Six Thinking Hats";
    definition := "Structured parallel thinking using six distinct perspectives.";
    framework_type := "ill-defined";
    complexity_fit := ["complicated"; "complex"];
    phase := "discovery";
    required_concepts :=
      ["white (facts)";
       "red (emotions)";
       "black (caution)";
       "yellow (optimism)";
       "green (creativity)";
       "blue (process)"];
    when_to_use := "When group thinking is stuck or dominated by one perspective.";
    key_questions :=
      ["White: What are the facts and data?";
       "Red: What's your gut feeling?";
       "Black: What could go wrong?";
       "Yellow: What are the benefits?";
       "Green: What alternatives exist?";
       "Blue: What's the process forward?"];
    output_structure :=
      [("facts", "Objective information");
       ("feelings", "Emotional reactions");
       ("risks", "Potential problems");
       ("benefits", "Potential gains");
       ("alternatives", "Creative options");
       ("next_steps", "Process forward")]
  |});
  ("root_cause_analysis", {|
    title := "Root Cause Analysis (5 Whys)";
    definition := "Drill down through symptoms to find underlying causes.";
    framework_type := "ill-defined";
    complexity_fit := ["simple"; "complicated"];
    phase := "discovery";
    required_concepts :=
      ["symptom";
       "cause chain";
       "root cause";
       "systemic factors"];
    when_to_use := "When facing a recurring problem or when symptoms are clear but causes are not.";
    key_questions :=
      ["What is the observable problem?";
       "Why does that happen? (x5)";
       "Is this the root cause or another symptom?";
       "What systemic factors enable this?";
       "How do we know we've found the root?"];
    output_structure :=
      [("symptom", "Observable problem");
       ("cause_chain", "5 Why analysis");
       ("root_cause", "Fundamental cause");
       ("systemic_factors", "Enabling conditions")]
  |});
  ("macro_trends", {|
    title := "Macro Trends Analysis";
    definition := "Analyze large-scale forces shaping your problem space (PESTLE).";
    framework_type := "undefined";
    complexity_fit := ["complex"; "chaotic"];
    phase := "discovery";
    required_concepts :=
      ["political";
       "economic";
       "social";
       "technological";
       "legal";
       "environmental"];
    when_to_use := "When you need to understand the external forces affecting your problem.";
    key_questions :=
      ["What political factors are relevant?";
       "What economic forces are at play?";
       "What social/cultural shifts matter?";
       "What technological changes are coming?";
       "What legal/regulatory factors apply?";
       "What environmental factors are relevant?"];
    output_structure :=
      [("political", "Government, policy factors");
       ("economic", "Market, financial forces");
       ("social", "Cultural, demographic shifts");
       ("technological", "Tech trends, disruptions");
       ("legal", "Regulatory environment");
       ("environmental", "Sustainability factors")]
  |});
  ("systems_thinking", {|
    title := "Systems Thinking";
    definition := "Understand the problem as part of an interconnected system with feedback loops.";
    framework_type := "wicked";
    complexity_fit := ["complex"; "chaotic"];
    phase := "discovery";
    required_concepts :=
      ["system boundaries";
       "feedback loops";
       "stocks and flows";
       "leverage points";
       "emergence"];
    when_to_use := "When the problem involves multiple interdependent parts or unintended consequences.";
    key_questions :=
      ["What are the boundaries of the system?";
       "What are the key elements and their relationships?";
       "Where are the feedback loops (reinforcing/balancing)?";
       "What are the leverage points?";
       "What emergent behaviors exist?"];
    output_structure :=
      [("boundaries", "System scope");
       ("elements", "Key components");
       ("relationships", "Connections and dependencies");
       ("feedback_loops", "Reinforcing and balancing");
       ("leverage_points", "Where intervention is effective")]
  |});
  ("value_migration", {|
    title := "Value Migration";
    definition := "Track where value is moving in your industry to find opportunities.";
    framework_type := "ill-defined";
    complexity_fit := ["complicated"; "complex"];
    phase := "discovery";
    required_concepts :=
      ["value chain";
       "profit pools";
       "migration patterns";
       "value capture";
       "disruption"];
    when_to_use := "When exploring where competitive advantage is shifting in an industry.";
    key_questions :=
      ["Where is value being created today?";
       "Where is value migrating to?";
       "What's driving the migration?";
       "Who is capturing the new value?";
       "Where are the profit pools drying up?"];
    output_structure :=
      [("current_value", "Where value exists today");
       ("migration_direction", "Where it's moving");
       ("drivers", "Forces causing migration");
       ("opportunities", "Where to position")]
  |})].

Definition PHASE_2_FRAMEWORKS : gmap string FrameworkTemplate :=
  list_to_map [
  ("pws_triple_validation", {|
    title := "PWS Triple Validation Compass";
    definition := "Validate that a problem is REAL, WINNABLE, and WORTH IT.";
    framework_type := "well-defined";
    complexity_fit := ["complicated"; "complex"];
    phase := "solution";
    required_concepts :=
      ["real (pain exists)";
       "winnable (solution feasible)";
       "worth it (value > cost)"];
    when_to_use := "When you have a problem hypothesis and need to validate it's worth solving.";
    key_questions :=
      ["REAL: Do people actually experience this pain? Evidence?";
       "WINNABLE: Can a solution be built within constraints?";
       "WORTH IT: Does the value justify the effort?";
       "What's the evidence for each?";
       "What gaps remain?"];
    output_structure :=
      [("real_score", "Evidence of pain (1-10)");
       ("winnable_score", "Feasibility assessment (1-10)");
       ("worth_it_score", "Value vs cost (1-10)");
       ("evidence", "Supporting data");
       ("gaps", "What needs validation")]
  |});
  ("heart_framework", {|
    title := "HEART Framework (Pitching)";
    definition := "Structure a compelling pitch: Hook, Evidence, Action, Reason, Timeline.";
    framework_type := "well-defined";
    complexity_fit := ["simple"; "complicated"];
    phase := "solution";
    required_concepts :=
      ["hook";
       "evidence";
       "action";
       "reason";
       "timeline"];
    when_to_use := "When you need to pitch or communicate your solution compellingly.";
    key_questions :=
      ["What's the hook that grabs attention?";
       "What evidence supports your claim?";
       "What action do you want them to take?";
       "Why should they care (what's in it for them)?";
       "What's the timeline/urgency?"];
    output_structure :=
      [("hook", "Attention grabber");
       ("evidence", "Supporting proof");
       ("action", "Clear ask");
       ("reason", "Why it matters to them");
       ("timeline", "Urgency/next steps")]
  |});
  ("mullins_model", {|
    title := "Mullins 7 Domains Model";
    definition := "Assess opportunity attractiveness across market, industry, and team dimensions.";
    framework_type := "well-defined";
    complexity_fit := ["complicated"];
    phase := "solution";
    required_concepts :=
      ["market attractiveness";
       "industry attractiveness";
       "team capability";
       "macro/micro"];
    when_to_use := "When evaluating whether to pursue a business opportunity.";
    key_questions :=
      ["Is the market large and growing?";
       "Is the industry structurally attractive?";
       "Do you have sustainable advantage?";
       "Can you serve the target segment?";
       "Does the team have the right capabilities?"];
    output_structure :=
      [("market_macro", "Overall market size and growth");
       ("market_micro", "Target segment attractiveness");
       ("industry_macro", "Industry structure (Porter's)");
       ("industry_micro", "Competitive advantage");
       ("team_fit", "Team capability match")]
  |});
  ("business_model_canvas", {|
    title := "Business Model Canvas";
    definition := "Map the 9 building blocks of a business model.";
    framework_type := "well-defined";
    complexity_fit := ["complicated"];
    phase := "solution";
    required_concepts :=
      ["value proposition";
       "customer segments";
       "channels";
       "relationships";
       "revenue";
       "resources";
       "activities";
       "partners";
       "costs"];
    when_to_use := "When designing or evaluating a business model.";
    key_questions :=
      ["What value do you deliver?";
       "Who are your customers?";
       "How do you reach them?";
       "What relationships do you build?";
       "How do you make money?";
       "What resources do you need?";
       "What activities are key?";
       "Who are your partners?";
       "What are your costs?"];
    output_structure :=
      [("value_proposition", "What you offer");
       ("customer_segments", "Who you serve");
       ("channels", "How you reach them");
       ("relationships", "How you engage");
       ("revenue_streams", "How you earn");
       ("key_resources", "What you need");
       ("key_activities", "What you do");
       ("key_partners", "Who helps you");
       ("cost_structure", "What it costs")]
  |});
  ("lean_startup_mvp", {|
    title := "Lean Startup / MVP";
    definition := "Build-Measure-Learn cycle with minimum viable product.";
    framework_type := "well-defined";
    complexity_fit := ["complex"];
    phase := "solution";
    required_concepts :=
      ["hypothesis";
       "MVP";
       "metrics";
       "pivot/persevere";
       "validated learning"];
    when_to_use := "When you need to test assumptions quickly with minimal investment.";
    key_questions :=
      ["What's the riskiest assumption?";
       "What's the smallest test to validate it?";
       "What metric will indicate success?";
       "What will you learn?";
       "Will you pivot or persevere?"];
    output_structure :=
      [("hypothesis", "Testable assumption");
       ("mvp", "Minimum viable product/test");
       ("success_metric", "How to measure");
       ("learning", "What you discovered");
       ("decision", "Pivot or persevere")]
  |});
  ("stakeholder_mapping", {|
    title := "Stakeholder Mapping";
    definition := "Identify and analyze all parties affected by or affecting the problem/solution.";
    framework_type := "wicked";
    complexity_fit := ["complicated"; "complex"];
    phase := "solution";
    required_concepts :=
      ["stakeholders";
       "power";
       "interest";
       "influence";
       "relationships"];
    when_to_use := "When multiple parties are involved with different interests.";
    key_questions :=
      ["Who are all the stakeholders?";
       "What are their interests?";
       "What power do they have?";
       "How do they influence each other?";
       "Who are allies vs. blockers?"];
    output_structure :=
      [("stakeholders", "All parties identified");
       ("power_interest", "2x2 mapping");
       ("interests", "What each wants");
       ("strategy", "How to engage each")]
  |})].

(** [{**PHASE_1_FRAMEWORKS, **PHASE_2_FRAMEWORKS}]: the second dict wins
    on a common key. *)
Definition ALL_FRAMEWORKS : gmap string FrameworkTemplate :=
  PHASE_2_FRAMEWORKS ∪ PHASE_1_FRAMEWORKS.

Definition get_framework (framework_id : string) : option FrameworkTemplate :=
  ALL_FRAMEWORKS !! framework_id.

End Frameworks.

(** ** The framework recommender *)

Module Recommender.

(** The fields of the context analysis that the recommender's result
    depends on. *)
Module Pyramid.
Record t : Type := {
  detected_signals : option (list string);
  primary_signal : option string
}.
End Pyramid.

(** The [full_data] attached to a recommendation; only
    [_enrich_recommendations] stores [required_concepts]. *)
Module FullData.
Record t : Type := {
  title : string;
  definition : string;
  key_questions : list string;
  output_structure : list (string * string);
  required_concepts : option (list string)
}.
End FullData.

Module Recommendation.
Record t : Type := {
  framework_id : string;
  title : string;
  relevance_score : Q;
  rationale : string;
  would_address : list string;
  phase : string;
  signals_matched : list string;
  full_data : option FullData.t
}.
End Recommendation.

(** The dict returned by [recommend]. *)
Module Selection.
Record t : Type := {
  recommended_frameworks : list Recommendation.t;
  selection_reasoning : string;
  primary_recommendation : string;
  complementary_pairs : list (list string);
  _error : option string
}.
End Selection.

(** Outcome of the recommender's inference call. *)
Inductive upstream : Type :=
| Raised (e : string)
| Parsed (result : Selection.t).

Definition set_full_data (rec : Recommendation.t) (d : FullData.t)
  : Recommendation.t :=
  {| Recommendation.framework_id := Recommendation.framework_id rec;
     Recommendation.title := Recommendation.title rec;
     Recommendation.relevance_score := Recommendation.relevance_score rec;
     Recommendation.rationale := Recommendation.rationale rec;
     Recommendation.would_address := Recommendation.would_address rec;
     Recommendation.phase := Recommendation.phase rec;
     Recommendation.signals_matched := Recommendation.signals_matched rec;
     Recommendation.full_data := Some d |}.

(** [FrameworkRecommender._enrich_recommendations] *)
Definition _enrich_recommendations (result : Selection.t) : Selection.t :=
  let enriched_frameworks :=
    map (fun rec =>
           match Frameworks.ALL_FRAMEWORKS !! Recommendation.framework_id rec with
           | Some framework =>
               set_full_data rec
                 {| FullData.title := Frameworks.title framework;
                    FullData.definition := Frameworks.definition framework;
                    FullData.key_questions := Frameworks.key_questions framework;
                    FullData.output_structure := Frameworks.output_structure framework;
                    FullData.required_concepts :=
                      Some (Frameworks.required_concepts framework) |}
           | None => rec
           end)
        (Selection.recommended_frameworks result) in
  {| Selection.recommended_frameworks := enriched_frameworks;
     Selection.selection_reasoning := Selection.selection_reasoning result;
     Selection.primary_recommendation := Selection.primary_recommendation result;
     Selection.complementary_pairs := Selection.complementary_pairs result;
     Selection._error := Selection._error result |}.

(** The local dict [signal_frameworks] of [_fallback_recommendations]. *)
Definition signal_frameworks : gmap string (string * string * string) :=
  list_to_map [
    ("causal_ambiguity", ("root_cause_analysis", "Root Cause Analysis", "Identify root causes"));
    ("system_bottleneck", ("reverse_salience", "Reverse Salience", "Find system bottlenecks"));
    ("stakeholder_conflict", ("stakeholder_mapping", "Stakeholder Mapping", "Map stakeholder interests"));
    ("trend_pressure", ("scenario_planning", "Scenario Planning", "Explore future scenarios"));
    ("user_behavior", ("jobs_to_be_done", "Jobs-To-Be-Done", "Understand user needs"));
    ("business_model", ("business_model_canvas", "Business Model Canvas", "Design business model"));
    ("validation_gap", ("lean_startup_mvp", "Lean Startup / MVP", "Validate assumptions"));
    ("execution_focus", ("process_mapping", "Process Mapping", "Map execution steps"));
    ("ideation_needed", ("six_thinking_hats", "Six Thinking Hats", "Generate diverse ideas"));
    ("narrative_focus", ("heart_framework", "HEART Framework", "Craft compelling narrative"));
    ("strategic_choice", ("decision_trees", "Decision Trees", "Structure key decisions"));
    ("uncertainty_high", ("cynefin", "Cynefin Framework", "Navigate uncertainty"));
    ("time_pressure", ("pws_triple_validation", "PWS Triple Validation", "Quick validation"))].

Definition diverse_defaults : list (string * string * string) :=
  [("root_cause_analysis", "Root Cause Analysis", "Understand underlying causes");
   ("scenario_planning", "Scenario Planning", "Explore possible futures");
   ("stakeholder_mapping", "Stakeholder Mapping", "Map key stakeholders");
   ("six_thinking_hats", "Six Thinking Hats", "Multiple perspectives")].

(** One iteration of the loop over [detected_signals[:4]]; the state is
    the list [recommendations] and the set [used_frameworks]. *)
Definition signal_step (st : list Recommendation.t * gset string) (signal : string)
  : list Recommendation.t * gset string :=
  let '(recommendations, used_frameworks) := st in
  match signal_frameworks !! signal with
  | Some (fid, title, rationale) =>
      if bool_decide (fid ∈ used_frameworks) then st
      else
        (recommendations ++
           [{| Recommendation.framework_id := fid;
               Recommendation.title := title;
               Recommendation.relevance_score := 0.80;
               Recommendation.rationale :=
                 "Signal '" +:+ signal +:+ "' detected - " +:+ rationale;
               Recommendation.would_address := [rationale];
               Recommendation.phase := "discovery";
               Recommendation.signals_matched := [signal];
               Recommendation.full_data := None |}],
         {[fid]} ∪ used_frameworks)
  | None => st
  end.

Definition default_recommendation (d : string * string * string)
  : Recommendation.t :=
  let '(fid, title, rationale) := d in
  {| Recommendation.framework_id := fid;
     Recommendation.title := title;
     Recommendation.relevance_score := 0.70;
     Recommendation.rationale := "Diverse exploration - " +:+ rationale;
     Recommendation.would_address := [rationale];
     Recommendation.phase := "discovery";
     Recommendation.signals_matched := [];
     Recommendation.full_data := None |}.

(** The enrichment loop at the end of [_fallback_recommendations]. *)
Definition enrich_fallback (rec : Recommendation.t) : Recommendation.t :=
  match Frameworks.ALL_FRAMEWORKS !! Recommendation.framework_id rec with
  | Some framework =>
      set_full_data rec
        {| FullData.title := Frameworks.title framework;
           FullData.definition := Frameworks.definition framework;
           FullData.key_questions := Frameworks.key_questions framework;
           FullData.output_structure := Frameworks.output_structure framework;
           FullData.required_concepts := None |}
  | None => rec
  end.

(** [FrameworkRecommender._fallback_recommendations] *)
Definition _fallback_recommendations (pyramid : Pyramid.t) (error : string)
  : Selection.t :=
  let detected_signals := default [] (Pyramid.detected_signals pyramid) in
  let from_signals :=
    fst (foldl signal_step ([], ∅) (take 4 detected_signals)) in
  let recommendations :=
    match from_signals with
    | [] => map default_recommendation (take 3 diverse_defaults)
    | _ => from_signals
    end in
  let recommendations := map enrich_fallback recommendations in
  {| Selection.recommended_frameworks := recommendations;
     Selection.selection_reasoning :=
       "Signal-driven fallback: " +:+
       match detected_signals with
       | [] => "diverse exploration"
       | _ => String.concat ", " detected_signals
       end;
     Selection.primary_recommendation :=
       match recommendations with
       | rec :: _ => Recommendation.framework_id rec
       | [] => "root_cause_analysis"
       end;
     Selection.complementary_pairs := [];
     Selection._error := Some error |}.

(** [FrameworkRecommender.recommend]; the diagnosis and the conversation
    only feed the prompt. *)
Definition recommend (pyramid_analysis : Pyramid.t) (u : upstream) : Selection.t :=
  match u with
  | Parsed result => _enrich_recommendations result
  | Raised e => _fallback_recommendations pyramid_analysis e
  end.

Definition ids_of (recs : list Recommendation.t) : list string :=
  map Recommendation.framework_id recs.

Definition framework_ids (s : Selection.t) : list string :=
  ids_of (Selection.recommended_frameworks s).

End Recommender.

(** ** The framework executor *)

Module Executor.

(** A citation dict: [title], [text] and [source] are written by
    [_extract_citations], [used_by_frameworks] by the consolidator. *)
Module Citation.
Record t : Type := {
  title : string;
  text : string;
  source : string;
  used_by_frameworks : option (list string)
}.
End Citation.

Module Answer.
Record t : Type := {
  question : string;
  answer : string;
  evidence : string
}.
End Answer.

(** The dict under ["framework_analysis"]; an [option] field is a key
    that may be missing. *)
Module Analysis.
Record t : Type := {
  summary : option string;
  key_questions_answered : list Answer.t;
  framework_output : list (string * string);
  insights : option (list string);
  opportunities : option (list string);
  risks_or_gaps : option (list string);
  recommended_next_steps : option (list string)
}.

(** The empty dict [{}]. *)
Definition empty : t :=
  {| summary := None; key_questions_answered := []; framework_output := [];
     insights := None; opportunities := None; risks_or_gaps := None;
     recommended_next_steps := None |}.
End Analysis.

(** The value stored under ["framework_analysis"]: the key is missing,
    holds [None], or holds a dict. *)
Inductive analysis_field : Type :=
| Missing
| IsNone
| Dict (a : Analysis.t).

(** A framework analysis result. *)
Module Result.
Record t : Type := {
  framework_id : option string;
  framework_title : option string;
  framework_analysis : analysis_field;
  methodology_notes : option string;
  confidence_level : option Q;
  needs_more_info : option (list string);
  citations : option (list Citation.t);
  error : option string;
  _error : option string
}.
End Result.

(** Outcome of the executor's grounded inference call: the [try] block
    raised, or the answer was decoded to [result] and [citations] were
    extracted from the grounding metadata of the response. *)
Inductive upstream : Type :=
| Raised (e : string)
| Parsed (result : Result.t) (citations : list Citation.t).

(** [FrameworkExecutor._error_response] *)
Definition _error_response (error : string) : Result.t :=
  {| Result.framework_id := Some "error";
     Result.framework_title := Some "Error";
     Result.framework_analysis := IsNone;
     Result.methodology_notes := None;
     Result.confidence_level := None;
     Result.needs_more_info := None;
     Result.citations := Some [];
     Result.error := Some error;
     Result._error := None |}.

Definition placeholder_answer (q : string) : Answer.t :=
  {| Answer.question := q;
     Answer.answer := "Analysis pending - requires deeper exploration";
     Answer.evidence := "Based on conversation context" |}.

(** [FrameworkExecutor._fallback_execution] *)
Definition _fallback_execution (framework : Frameworks.FrameworkTemplate)
  (error : string) : Result.t :=
  let title := Frameworks.title framework in
  {| Result.framework_id :=
       Some (replace "-" "_" (replace " " "_" (lower title)));
     Result.framework_title := Some title;
     Result.framework_analysis := Dict
       {| Analysis.summary :=
            Some ("Applying " +:+ title +:+ " to analyze the problem context.");
          Analysis.key_questions_answered :=
            map placeholder_answer (take 3 (Frameworks.key_questions framework));
          Analysis.framework_output :=
            map (fun kd => (fst kd, "To be determined"))
                (Frameworks.output_structure framework);
          Analysis.insights :=
            Some ["The " +:+ title +:+ " framework suggests examining: "
                  +:+ Frameworks.when_to_use framework];
          Analysis.opportunities := Some ["Further analysis recommended"];
          Analysis.risks_or_gaps := Some ["Incomplete information for full analysis"];
          Analysis.recommended_next_steps :=
            Some (take 2 (Frameworks.key_questions framework)) |};
     Result.methodology_notes := Some "Analysis based on PWS methodology principles";
     Result.confidence_level := Some 0.4%Q;
     Result.needs_more_info := Some (take 3 (Frameworks.required_concepts framework));
     Result.citations := Some [];
     Result.error := None;
     Result._error := Some error |}.

(** [FrameworkExecutor.execute]; the context analysis, the conversation
    and the diagnosis only feed the prompt. *)
Definition execute (framework_id : string) (u : upstream) : Result.t :=
  match Frameworks.ALL_FRAMEWORKS !! framework_id with
  | None => _error_response ("Framework '" +:+ framework_id +:+ "' not found")
  | Some framework =>
      match u with
      | Parsed result citations =>
          {| Result.framework_id := Some framework_id;
             Result.framework_title := Some (Frameworks.title framework);
             Result.framework_analysis := Result.framework_analysis result;
             Result.methodology_notes := Result.methodology_notes result;
             Result.confidence_level := Result.confidence_level result;
             Result.needs_more_info := Result.needs_more_info result;
             Result.citations := Some citations;
             Result.error := Result.error result;
             Result._error := Result._error result |}
      | Raised e => _fallback_execution framework e
      end
  end.

(** The answered key questions of a result. *)
Definition answers (r : Result.t) : list Answer.t :=
  match Result.framework_analysis r with
  | Dict a => Analysis.key_questions_answered a
  | _ => []
  end.

End Executor.

(** ** The framework consolidator *)

Module Consolidator.
Import Executor.

Module TopInsight.
Record t : Type := {
  insight : string;
  source_frameworks : list (option string);
  confidence : Q;
  evidence : string
}.
End TopInsight.

Module Convergence.
Record t : Type := {
  point : string;
  frameworks_aligned : list string;
  implication : string
}.
End Convergence.

Module Divergence.
Record t : Type := {
  point : string;
  framework_a : string * string;
  framework_b : string * string;
  resolution : string
}.
End Divergence.

Module Opportunity.
Record t : Type := {
  opportunity : string;
  from_framework : option string;
  priority : string
}.
End Opportunity.

Module RiskGap.
Record t : Type := {
  risk_or_gap : string;
  from_framework : option string;
  mitigation : string
}.
End RiskGap.

Module NextStep.
Record t : Type := {
  action : string;
  rationale : string;
  framework_basis : option string
}.
End NextStep.

Module Contribution.
Record t : Type := {
  framework_id : option string;
  framework_title : option string;
  key_contribution : string;
  best_insight : string
}.
End Contribution.

Module Quality.
Record t : Type := {
  frameworks_used : nat;
  total_insights : nat;
  convergence_strength : string;
  gaps_remaining : list string
}.
End Quality.

(** The dict under ["consolidated_report"]. *)
Module Body.
Record t : Type := {
  executive_summary : string;
  top_insights : list TopInsight.t;
  convergence_points : list Convergence.t;
  divergence_points : list Divergence.t;
  opportunities : list Opportunity.t;
  risks_and_gaps : list RiskGap.t;
  unified_recommendation : string;
  next_steps : list NextStep.t
}.
End Body.

(** The dict returned by [consolidate]. *)
Module Report.
Record t : Type := {
  consolidated_report : Body.t;
  framework_contributions : list Contribution.t;
  all_citations : list Citation.t;
  overall_confidence : Q;
  analysis_quality : Quality.t;
  _error : option string
}.
End Report.

(** Outcome of the consolidator's grounded inference call. *)
Inductive upstream : Type :=
| Raised (e : string)
| Parsed (result : Report.t).

(** [citation["used_by_frameworks"] = ids] *)
Definition set_used_by (citation : Citation.t) (ids : list string) : Citation.t :=
  {| Citation.title := Citation.title citation;
     Citation.text := Citation.text citation;
     Citation.source := Citation.source citation;
     Citation.used_by_frameworks := Some ids |}.

(** The inner [for existing in all_citations] loop of [_merge_citations]:
    the first entry with the title gets the id appended, then [break]. *)
Fixpoint add_to_existing (title fid : string) (all_citations : list Citation.t)
  : list Citation.t :=
  match all_citations with
  | [] => []
  | existing :: rest =>
      if String.eqb (Citation.title existing) title then
        set_used_by existing
          (default [] (Citation.used_by_frameworks existing) ++ [fid]) :: rest
      else existing :: add_to_existing title fid rest
  end.

(** The body of [for citation in result.get("citations", [])]; the state
    is the list [all_citations] and the set [seen_titles].  The entries of
    [all_citations] are the dicts of the input, updated in place; no other
    dict is written. *)
Definition citation_step (fid : string)
  (st : list Citation.t * gset string) (citation : Citation.t)
  : list Citation.t * gset string :=
  let '(all_citations, seen_titles) := st in
  let title := Citation.title citation in
  if negb (String.eqb title "") && negb (bool_decide (title ∈ seen_titles)) then
    (all_citations ++ [set_used_by citation [fid]], {[title]} ∪ seen_titles)
  else if bool_decide (title ∈ seen_titles) then
    (add_to_existing title fid all_citations, seen_titles)
  else st.

Definition result_step (st : list Citation.t * gset string) (result : Result.t)
  : list Citation.t * gset string :=
  foldl (citation_step (default "unknown" (Result.framework_id result)))
        st (default [] (Result.citations result)).

(** [FrameworkConsolidator._merge_citations] *)
Definition _merge_citations (framework_results : list Result.t) : list Citation.t :=
  fst (foldl result_step ([], ∅) framework_results).

(** [result.get("framework_id", "unknown")] and
    [result.get("citations", [])]. *)
Definition fid_of (result : Result.t) : string :=
  default "unknown" (Result.framework_id result).

Definition citations_of (result : Result.t) : list Citation.t :=
  default [] (Result.citations result).

Definition titles (cs : list Citation.t) : list string := map Citation.title cs.

(** The citations in the order the two nested loops visit them, each
    with the id of its result. *)
Definition occurrences (framework_results : list Result.t)
  : list (string * Citation.t) :=
  flat_map (fun result => map (pair (fid_of result)) (citations_of result))
           framework_results.

Definition occurrence_step (st : list Citation.t * gset string)
  (oc : string * Citation.t) : list Citation.t * gset string :=
  citation_step oc.1 st oc.2.

(** The loop invariant of [_merge_citations] after the occurrences
    [done]: the entries have distinct titles, [seen_titles] is the set of
    these titles, a title has an entry when it is not empty and some
    visited citation carries it, and an entry lists the ids of the visited
    citations of its title. *)
Definition merged_state (st : list Citation.t * gset string)
  (done : list (string * Citation.t)) : Prop :=
  NoDup (titles st.1)
  /\ (forall t, t ∈ st.2 <-> t ∈ titles st.1)
  /\ (forall t, t ∈ titles st.1 <->
                t <> "" /\ exists oc, oc ∈ done /\ Citation.title oc.2 = t)
  /\ (forall entry, entry ∈ st.1 ->
        exists ids, Citation.used_by_frameworks entry = Some ids
                    /\ forall fid, fid ∈ ids <->
                                   (fid, Citation.title entry) ∈
                                     map (fun oc => (oc.1, Citation.title oc.2)) done).

(** [FrameworkConsolidator._empty_consolidation] *)
Definition _empty_consolidation : Report.t :=
  {| Report.consolidated_report :=
       {| Body.executive_summary := "No frameworks were selected for analysis.";
          Body.top_insights := [];
          Body.convergence_points := [];
          Body.divergence_points := [];
          Body.opportunities := [];
          Body.risks_and_gaps := [];
          Body.unified_recommendation :=
            "Select one or more frameworks to analyze your problem.";
          Body.next_steps := [] |};
     Report.framework_contributions := [];
     Report.all_citations := [];
     Report.overall_confidence := 0.0;
     Report.analysis_quality :=
       {| Quality.frameworks_used := 0;
          Quality.total_insights := 0;
          Quality.convergence_strength := "low";
          Quality.gaps_remaining := ["No analysis performed"] |};
     Report._error := None |}.

(** [result.get("framework_analysis", {})], on which the caller then
    calls [.get]: a stored [None] has no such method. *)
Definition analysis_of (result : Result.t) : py Analysis.t :=
  match Result.framework_analysis result with
  | Missing => Ret Analysis.empty
  | Dict a => Ret a
  | IsNone => Raise "AttributeError: 'NoneType' object has no attribute 'get'"
  end.

(** [xs[0] if xs else fallback] for [xs = d.get(key)]. *)
Definition first_or (xs : option (list string)) (fallback : string) : string :=
  match xs with
  | Some (x :: _) => x
  | _ => fallback
  end.

(** [FrameworkConsolidator._single_framework_report] *)
Definition _single_framework_report (result : Result.t) : py Report.t :=
  analysis ← analysis_of result;
  let framework_title := Result.framework_title result in
  let confidence_level := default 0.7%Q (Result.confidence_level result) in
  Ret
    {| Report.consolidated_report :=
         {| Body.executive_summary :=
              default "Single framework analysis completed." (Analysis.summary analysis);
            Body.top_insights :=
              map (fun insight =>
                     {| TopInsight.insight := insight;
                        TopInsight.source_frameworks := [Result.framework_id result];
                        TopInsight.confidence := confidence_level;
                        TopInsight.evidence := "From framework analysis" |})
                  (take 5 (default [] (Analysis.insights analysis)));
            Body.convergence_points := [];
            Body.divergence_points := [];
            Body.opportunities :=
              map (fun opp =>
                     {| Opportunity.opportunity := opp;
                        Opportunity.from_framework := framework_title;
                        Opportunity.priority := "medium" |})
                  (default [] (Analysis.opportunities analysis));
            Body.risks_and_gaps :=
              map (fun risk =>
                     {| RiskGap.risk_or_gap := risk;
                        RiskGap.from_framework := framework_title;
                        RiskGap.mitigation := "Further analysis needed" |})
                  (default [] (Analysis.risks_or_gaps analysis));
            Body.unified_recommendation :=
              "Based on " +:+ str_of framework_title +:+ " analysis: " +:+
              first_or (Analysis.recommended_next_steps analysis) "Continue analysis";
            Body.next_steps :=
              map (fun step =>
                     {| NextStep.action := step;
                        NextStep.rationale := "From framework analysis";
                        NextStep.framework_basis := framework_title |})
                  (default [] (Analysis.recommended_next_steps analysis)) |};
       Report.framework_contributions :=
         [{| Contribution.framework_id := Result.framework_id result;
             Contribution.framework_title := framework_title;
             Contribution.key_contribution :=
               default "Framework analysis" (Analysis.summary analysis);
             Contribution.best_insight :=
               first_or (Analysis.insights analysis) "N/A" |}];
       Report.all_citations := default [] (Result.citations result);
       Report.overall_confidence := confidence_level;
       Report.analysis_quality :=
         {| Quality.frameworks_used := 1;
            Quality.total_insights := length (default [] (Analysis.insights analysis));
            Quality.convergence_strength := "low";
            Quality.gaps_remaining := default [] (Result.needs_more_info result) |};
       Report._error := None |}.

(** The first loop of [_fallback_consolidation]: the insights,
    opportunities and risks of all results, concatenated. *)
Fixpoint collect (framework_results : list Result.t)
  (acc : list string * list string * list string)
  : py (list string * list string * list string) :=
  match framework_results with
  | [] => Ret acc
  | result :: rest =>
      analysis ← analysis_of result;
      let '(all_insights, all_opportunities, all_risks) := acc in
      collect rest
        (all_insights ++ default [] (Analysis.insights analysis),
         all_opportunities ++ default [] (Analysis.opportunities analysis),
         all_risks ++ default [] (Analysis.risks_or_gaps analysis))
  end.

Fixpoint contributions (framework_results : list Result.t)
  : py (list Contribution.t) :=
  match framework_results with
  | [] => Ret []
  | r :: rest =>
      analysis ← analysis_of r;
      others ← contributions rest;
      Ret ({| Contribution.framework_id :=
                Some (default "unknown" (Result.framework_id r));
              Contribution.framework_title :=
                Some (default "Unknown" (Result.framework_title r));
              Contribution.key_contribution :=
                default "Analysis provided" (Analysis.summary analysis);
              Contribution.best_insight :=
                first_or (Analysis.insights analysis) "N/A" |} :: others)
  end.

(** [FrameworkConsolidator._fallback_consolidation] *)
Definition _fallback_consolidation (framework_results : list Result.t)
  (error : string) : py Report.t :=
  collected ← collect framework_results ([], [], []);
  let '(all_insights, all_opportunities, all_risks) := collected in
  framework_contributions ← contributions framework_results;
  Ret
    {| Report.consolidated_report :=
         {| Body.executive_summary :=
              "Consolidated analysis from " +:+ pretty (length framework_results)
              +:+ " frameworks. " +:+ "Key themes: " +:+
              match all_insights with
              | [] => "Analysis in progress"
              | _ => String.concat ", " (take 3 all_insights)
              end;
            Body.top_insights :=
              map (fun insight =>
                     {| TopInsight.insight := insight;
                        TopInsight.source_frameworks := [Some "multiple"];
                        TopInsight.confidence := 0.6;
                        TopInsight.evidence := "From framework analyses" |})
                  (take 5 all_insights);
            Body.convergence_points := [];
            Body.divergence_points := [];
            Body.opportunities :=
              map (fun opp =>
                     {| Opportunity.opportunity := opp;
                        Opportunity.from_framework := Some "Multiple";
                        Opportunity.priority := "medium" |})
                  (take 3 all_opportunities);
            Body.risks_and_gaps :=
              map (fun risk =>
                     {| RiskGap.risk_or_gap := risk;
                        RiskGap.from_framework := Some "Multiple";
                        RiskGap.mitigation := "TBD" |})
                  (take 3 all_risks);
            Body.unified_recommendation :=
              "Review the individual framework analyses for detailed insights.";
            Body.next_steps :=
              [{| NextStep.action := "Review framework outputs";
                  NextStep.rationale := "Consolidation incomplete";
                  NextStep.framework_basis := Some "All" |}] |};
       Report.framework_contributions := framework_contributions;
       Report.all_citations := _merge_citations framework_results;
       Report.overall_confidence := 0.5;
       Report.analysis_quality :=
         {| Quality.frameworks_used := length framework_results;
            Quality.total_insights := length all_insights;
            Quality.convergence_strength := "unknown";
            Quality.gaps_remaining := ["Full consolidation incomplete"] |};
       Report._error := Some error |}.

Definition set_all_citations (result : Report.t) (cs : list Citation.t) : Report.t :=
  {| Report.consolidated_report := Report.consolidated_report result;
     Report.framework_contributions := Report.framework_contributions result;
     Report.all_citations := cs;
     Report.overall_confidence := Report.overall_confidence result;
     Report.analysis_quality := Report.analysis_quality result;
     Report._error := Report._error result |}.

(** [FrameworkConsolidator.consolidate]; the context analysis and the
    conversation only feed the prompt, and [u] is consulted only when
    there are two results or more. *)
Definition consolidate (framework_results : list Result.t) (u : upstream)
  : py Report.t :=
  match framework_results with
  | [] => Ret _empty_consolidation
  | [result] => _single_framework_report result
  | _ =>
      try_except
        (match u with
         | Raised e => Raise e
         | Parsed result =>
             Ret (set_all_citations result (_merge_citations framework_results))
         end)
        (fun e => _fallback_consolidation framework_results e)
  end.

Definition top_insight_texts (rep : Report.t) : list string :=
  map TopInsight.insight (Body.top_insights (Report.consolidated_report rep)).

End Consolidator.

(** ** The research agent: search execution *)

Module Research.

(** One entry of the list returned by [_execute_searches]; [answer] and
    [error] are keys that an entry may lack. *)
Module SearchResult.
Record t : Type := {
  query : string;
  answer : option json;
  results : json;
  error : option string
}.
End SearchResult.

(** Outcome of [requests.post] for one query: the call raised, or a
    response arrived with a status code and a body that [response.json()]
    decodes or fails to decode. *)
Inductive http : Type :=
| HttpRaised (e : string)
| HttpResponse (status_code : nat) (body : py json).

(** [if not self.tavily_api_key]: [None] and the empty string are falsy. *)
Definition configured (tavily_api_key : option string) : bool :=
  match tavily_api_key with
  | None => false
  | Some k => negb (String.eqb k "")
  end.

Definition not_configured (q : string) : SearchResult.t :=
  {| SearchResult.query := q;
     SearchResult.answer := None;
     SearchResult.results := JArr [];
     SearchResult.error := Some "Tavily API key not configured" |}.

Definition failed (query e : string) : SearchResult.t :=
  {| SearchResult.query := query;
     SearchResult.answer := None;
     SearchResult.results := JArr [];
     SearchResult.error := Some e |}.

(** The body of the loop over [queries], for a configured provider. *)
Definition search_one (post : string -> http) (query : string) : SearchResult.t :=
  let enhanced_query := query +:+ " 2023 OR 2024 OR 2025" in
  match post enhanced_query with
  | HttpRaised e => failed query e
  | HttpResponse status_code body =>
      if (status_code =? 200)%nat then
        match (data ← body;
               answer ← get data "answer" (JStr "");
               results ← get data "results" (JArr []);
               Ret {| SearchResult.query := query;
                      SearchResult.answer := Some answer;
                      SearchResult.results := results;
                      SearchResult.error := None |}) with
        | Ret entry => entry
        | Raise e => failed query e
        end
      else failed query ("API error: " +:+ pretty status_code)
  end.

(** [ResearchAgent._execute_searches]; [post] is the search provider, as
    a function of the query text it is sent. *)
Definition _execute_searches (tavily_api_key : option string)
  (post : string -> http) (queries : list string) : list SearchResult.t :=
  if negb (configured tavily_api_key) then map not_configured queries
  else map (search_one post) queries.

End Research.

(** ** The documented contracts *)

Module Spec.










(** Some result with framework id [fid] carries a citation titled
    [title]. *)
Definition contributes (framework_results : list Executor.Result.t)
  (fid title : string) : Prop :=
  exists result citation,
    result ∈ framework_results
    /\ citation ∈ Consolidator.citations_of result
    /\ Executor.Citation.title citation = title
    /\ Consolidator.fid_of result = fid.

(** The merged entry titled [title] lists [fid] in [used_by_frameworks]. *)
Definition credits (merged : list Executor.Citation.t) (title fid : string) : Prop :=
  exists entry ids,
    entry ∈ merged
    /\ Executor.Citation.title entry = title
    /\ Executor.Citation.used_by_frameworks entry = Some ids
    /\ fid ∈ ids.

(** [d.get(k, default)] for a value known to be read from a dict. *)
Definition field_or (x : json) (k : string) (default : json) : json :=
  match at_path [k] x with
  | Some v => v
  | None => default
  end.

(** The four classifier outputs are dicts and the wickedness output lists
    its characteristics in a value that has a length. *)
Definition outputs_are_dicts (definition complexity risk wickedness : json) : bool :=
  is_obj definition && is_obj complexity && is_obj risk && is_obj wickedness
  && returns (len (field_or wickedness "wicked_characteristics" (JArr []))).


End Spec.

(** ** Concrete inputs *)

Module Samples.
Import Diagnosis.

Definition conversation : list Message :=
  [{| role := "user"; content := "We keep losing customers but I don't know why" |};
   {| role := "assistant"; content := "Which regions are affected?" |}].










(** A result that carries one citation. *)
Definition cited (fid title text : string) : Executor.Result.t :=
  {| Executor.Result.framework_id := Some fid;
     Executor.Result.framework_title := Some fid;
     Executor.Result.framework_analysis := Executor.Missing;
     Executor.Result.methodology_notes := None;
     Executor.Result.confidence_level := None;
     Executor.Result.needs_more_info := None;
     Executor.Result.citations :=
       Some [{| Executor.Citation.title := title; Executor.Citation.text := text;
                Executor.Citation.source := "PWS Knowledge Base";
                Executor.Citation.used_by_frameworks := None |}];
     Executor.Result.error := None;
     Executor.Result._error := None |}.

Definition cites_a : Executor.Result.t :=
  cited "root_cause_analysis" "PWS Handbook" "Ask why five times.".
Definition cites_b : Executor.Result.t :=
  cited "stakeholder_mapping" "PWS Handbook" "Map power against interest.".
Definition cites_untitled : Executor.Result.t :=
  cited "scenario_planning" "" "An excerpt without a title.".

(** A successful search that found nothing. *)
Definition empty_page : Research.http :=
  Research.HttpResponse 200 (Ret (JObj [("answer", JStr ""); ("results", JArr [])])).

End Samples.

(** ** Text helpers and the prompts of the classifiers *)

Module Text.
(** A str is embedded as the [string] of its characters, one [ascii] per
    character; lengths and slices count characters. *)

(** [s[:n]] *)
Fixpoint take_str (n : nat) (s : string) : string :=
  match n, s with
  | S n', String c s' => String c (take_str n' s')
  | _, _ => EmptyString
  end.

(** [l[-n:]] for a positive [n]. *)
Definition last_n {A : Type} (n : nat) (l : list A) : list A :=
  drop (length l - n) l.

(** The newline character. *)
Definition nl : string := String (ascii_of_nat 10) EmptyString.

(** [if s] for a str. *)
Definition nonempty (s : string) : bool := negb (String.eqb s "").
End Text.

Module ClassifierPrompt.
Import Diagnosis Text.
(** The line of one message. *)
Definition format_message (msg : Message) : string :=
  (if String.eqb (role msg) "user" then "USER" else "LARRY")
  +:+ ": " +:+ take_str 500 (content msg).

(** [_format_conversation] of the four classifier agents. *)
Definition _format_conversation (conversation : list Message) : string :=
  String.concat (nl +:+ nl) (map format_message (last_n 10 conversation)).
End ClassifierPrompt.

(** ** What the prompt builders read before the [try] block *)

Module PromptReads.
Import Text.

(** [if x] for a decoded value. *)
Definition truthy (x : json) : bool :=
  match x with
  | JNull => false
  | JBool b => b
  | JNum q => negb (Qeq_bool q 0)
  | JStr s => nonempty s
  | JArr items => negb (bool_decide (items = []))
  | JObj fields => negb (bool_decide (fields = []))
  end.

Definition is_str (x : json) : bool :=
  match x with JStr _ => true | _ => false end.

(** [', '.join(x)], for its exception only: a list of strs, a str and a
    dict, whose keys are strs, can be joined. *)
Definition join (x : json) : py unit :=
  match x with
  | JArr items =>
      if forallb is_str items then Ret tt
      else Raise "TypeError: sequence item: expected str instance"
  | JStr _ | JObj _ => Ret tt
  | _ => Raise "TypeError: can only join an iterable"
  end.

(** The reads of the context analysis in [_build_execution_prompt] and in
    [_build_consolidation_prompt]: [pyramid.get("scqa", {})] and the
    [scqa.get] calls.  Both prompts are built before the [try] block of
    their method. *)
Definition read_scqa (pyramid : json) : py unit :=
  scqa ← get pyramid "scqa" (JObj []);
  _ ← get scqa "situation" (JStr "N/A");
  Ret tt.

(** The reads of the context analysis in [_build_context_summary] and in
    [recommend], in their order; they precede the [try] block too.  The
    diagnosis is a dict, that of [get_diagnosis_dict]. *)
Definition recommender_reads (pyramid : json) : py unit :=
  scqa ← get pyramid "scqa" (JObj []);
  signals ← get pyramid "framework_signals" (JObj []);
  context ← get pyramid "context_analysis" (JObj []);
  _ ← get context "problem_stage" (JStr "unknown");
  _ ← get scqa "situation" (JStr "N/A");
  _ ← get signals "needs_discovery" (JBool true);
  gaps ← get context "gaps_identified" (JArr []);
  _ ← join gaps;
  assumptions ← get context "assumptions_made" (JArr []);
  _ ← join assumptions;
  detected_signals ← get pyramid "detected_signals" (JArr []);
  if truthy detected_signals then join detected_signals else Ret tt.

(** [read_scqa] succeeds. *)
Definition scqa_readable (pyramid : json) : bool :=
  is_obj pyramid && is_obj (Spec.field_or pyramid "scqa" (JObj [])).
End PromptReads.

(** ** The diagnosis consolidator: the context of the prompt *)

Module DiagnosisContext.
Import Diagnosis Text.

(** A citation as [_build_context] reads it: both keys may be missing. *)
Module Cite.
Record t : Type := {
  title : option string;
  text : option string
}.
End Cite.

(** A stored message: role, content and the citations shown with it. *)
Module Entry.
Record t : Type := {
  message : Message;
  citations : list Cite.t
}.
End Entry.

(** One round of the loop of [_summarize_conversation] over the reversed
    conversation, with its [break]. *)
Fixpoint latest_loop (reversed : list Message) (latest_user latest_assistant : string)
  : string * string :=
  match reversed with
  | [] => (latest_user, latest_assistant)
  | m :: rest =>
      let '(latest_user, latest_assistant) :=
        if String.eqb (role m) "user" && negb (nonempty latest_user) then
          (take_str 200 (content m), latest_assistant)
        else if String.eqb (role m) "assistant" && negb (nonempty latest_assistant) then
          (latest_user, take_str 200 (content m))
        else (latest_user, latest_assistant) in
      if nonempty latest_user && nonempty latest_assistant
      then (latest_user, latest_assistant)
      else latest_loop rest latest_user latest_assistant
  end.

(** [next((m["content"][:300] for m in conversation if m["role"] == "user"), "")] *)
Definition first_user (conversation : list Message) : string :=
  match List.filter (fun m => String.eqb (role m) "user") conversation with
  | m :: _ => take_str 300 (content m)
  | [] => ""
  end.

(** [DiagnosisConsolidator._summarize_conversation] *)
Definition _summarize_conversation (conversation : list Message) : string :=
  if (length conversation <? 2)%nat then "Conversation just started."
  else
    let '(latest_user, latest_assistant) := latest_loop (rev conversation) "" "" in
    "Initial: " +:+ first_user conversation +:+ nl
    +:+ "Latest exchange - User: " +:+ latest_user +:+ nl
    +:+ "Assistant: " +:+ latest_assistant.

(** The dict returned by [_build_context]. *)
Module Context.
Record t : Type := {
  message_count : nat;
  user_statements : list string;
  assistant_responses : list string;
  citations : list (string * string);
  conversation_summary : string
}.
End Context.

Definition contents_of (r : string) (conversation : list Entry.t) : list string :=
  map (fun e => content (Entry.message e))
      (List.filter (fun e => String.eqb (role (Entry.message e)) r) conversation).

(** [all_citations] after the loop: the list passed by the caller, when it
    is not empty, is the list that the loop extends. *)
Definition all_citations (conversation : list Entry.t)
  (citations : option (list Cite.t)) : list Cite.t :=
  default [] citations ++ flat_map Entry.citations conversation.

(** [DiagnosisConsolidator._build_context]: the context, and the list of
    the caller after the call. *)
Definition _build_context (conversation : list Entry.t)
  (citations : option (list Cite.t)) : Context.t * option (list Cite.t) :=
  let all := all_citations conversation citations in
  ({| Context.message_count := length conversation;
      Context.user_statements := last_n 3 (contents_of "user" conversation);
      Context.assistant_responses := last_n 2 (contents_of "assistant" conversation);
      Context.citations :=
        map (fun c => (default "" (Cite.title c),
                       take_str 200 (default "" (Cite.text c))))
            (take 5 all);
      Context.conversation_summary :=
        _summarize_conversation (map Entry.message conversation) |},
   match citations with
   | Some (c :: cs) => Some all
   | other => other
   end).

(** The excerpt of the latest message of role [r] whose excerpt is not
    empty. *)
Definition latest_excerpt (r : string) (conversation : list Message) : string :=
  match List.filter nonempty
          (map (fun m => take_str 200 (content m))
               (List.filter (fun m => String.eqb (role m) r) (rev conversation))) with
  | excerpt :: _ => excerpt
  | [] => ""
  end.
End DiagnosisContext.

(** ** Session state *)

Module Session.
Import Diagnosis DiagnosisContext.

(** The dataclass [DiagnosisState]; the confidence table and the
    timestamp are written by no function of the module after creation
    and are left out, as every other timestamp is. *)
Module DiagnosisState.
Record t : Type := {
  definition : json;
  complexity : json;
  risk_uncertainty : json;
  wickedness : json;
  profile : json
}.

Definition initial : t :=
  {| definition := JStr "undefined";
     complexity := JStr "complex";
     risk_uncertainty := JNum 0.5;
     wickedness := JStr "messy";
     profile := JObj [] |}.
End DiagnosisState.

(** The dataclass [ResearchState]. *)
Module ResearchState.
Record t : Type := {
  has_researched : bool;
  last_research : option json;
  research_count : nat;
  show_research_prompt : json;
  research_prompt_text : json
}.

Definition initial : t :=
  {| has_researched := false;
     last_research := None;
     research_count := 0;
     show_research_prompt := JBool false;
     research_prompt_text := JStr "" |}.
End ResearchState.

(** The part of [st.session_state] that the functions below read and
    write. *)
Module State.
Record t : Type := {
  messages : list Entry.t;
  message_count : nat;
  diagnosis : DiagnosisState.t;
  research : ResearchState.t;
  full_diagnosis : option json
}.

(** The state after [init_session_state] on a fresh session and after
    [clear_session]. *)
Definition initial : t :=
  {| messages := [];
     message_count := 0;
     diagnosis := DiagnosisState.initial;
     research := ResearchState.initial;
     full_diagnosis := None |}.
End State.

(** [add_message]; [citations or []] turns [None] into the empty list. *)
Definition add_message (role content : string) (citations : option (list Cite.t))
  (s : State.t) : State.t :=
  {| State.messages :=
       State.messages s ++
         [{| Entry.message := {| Diagnosis.role := role; Diagnosis.content := content |};
             Entry.citations := default [] citations |}];
     State.message_count := S (State.message_count s);
     State.diagnosis := State.diagnosis s;
     State.research := State.research s;
     State.full_diagnosis := State.full_diagnosis s |}.

(** [update_diagnosis].  The three reads of [diagnosis] and the first
    read of [ui_updates] precede every assignment, and the later reads of
    [ui_updates] cannot raise once the first one has not: when the
    function raises, the state is as it was. *)
Definition update_diagnosis (diagnosis : json) (s : State.t) : py State.t :=
  ui_updates ← get diagnosis "ui_updates" (JObj []);
  profile ← get diagnosis "profile" (JObj []);
  research ← get diagnosis "research" (JObj []);
  definition ← get ui_updates "definition" (JStr "undefined");
  complexity ← get ui_updates "complexity" (JStr "complex");
  risk_uncertainty ← get ui_updates "risk_uncertainty" (JNum 0.5);
  wickedness ← get ui_updates "wickedness" (JStr "messy");
  show_research_prompt ← get ui_updates "show_research_prompt" (JBool false);
  research_prompt_text ← get ui_updates "research_prompt_text" (JStr "");
  Ret {| State.messages := State.messages s;
         State.message_count := State.message_count s;
         State.diagnosis :=
           {| DiagnosisState.definition := definition;
              DiagnosisState.complexity := complexity;
              DiagnosisState.risk_uncertainty := risk_uncertainty;
              DiagnosisState.wickedness := wickedness;
              DiagnosisState.profile := profile |};
         State.research :=
           {| ResearchState.has_researched :=
                ResearchState.has_researched (State.research s);
              ResearchState.last_research :=
                ResearchState.last_research (State.research s);
              ResearchState.research_count :=
                ResearchState.research_count (State.research s);
              ResearchState.show_research_prompt := show_research_prompt;
              ResearchState.research_prompt_text := research_prompt_text |};
         State.full_diagnosis := Some diagnosis |}.

(** [get_diagnosis_dict] *)
Definition get_diagnosis_dict (s : State.t) : json :=
  let d := State.diagnosis s in
  JObj [("definition", DiagnosisState.definition d);
        ("complexity", DiagnosisState.complexity d);
        ("risk_uncertainty", DiagnosisState.risk_uncertainty d);
        ("wickedness", DiagnosisState.wickedness d)].


(** [clear_session] *)
Definition clear_session (s : State.t) : State.t := State.initial.

(** The calls that change the conversation. *)
Inductive action : Type :=
| AddMessage (role content : string) (citations : option (list Cite.t))
| UpdateDiagnosis (diagnosis : json)
| ClearSession.

(** One call; a raising [update_diagnosis] leaves the state as it was. *)
Definition step (s : State.t) (a : action) : State.t :=
  match a with
  | AddMessage role content citations => add_message role content citations s
  | UpdateDiagnosis diagnosis =>
      match update_diagnosis diagnosis s with
      | Ret s' => s'
      | Raise _ => s
      end
  | ClearSession => clear_session s
  end.

(** A diagnosis that [update_diagnosis] accepts and that the prompt of
    the next [diagnose] can quote: a dict whose [ui_updates], if present,
    is a dict. *)
Definition readable (diagnosis : json) : bool :=
  is_obj diagnosis && is_obj (Spec.field_or diagnosis "ui_updates" (JObj [])).

End Session.

(** ** The pyramid analyzer *)

Module Minto.
Import Diagnosis Text.

(** [MintoAnalyzer._default_pyramid] *)
Definition _default_pyramid : json :=
  JObj [
    ("pyramid", JObj [
      ("governing_thought",
       JStr "Conversation just started - exploring the problem space");
      ("key_arguments", JArr [])]);
    ("scqa", JObj [
      ("situation", JStr "New conversation initiated");
      ("complication", JStr "Problem not yet articulated");
      ("question", JStr "What problem is the user trying to solve?");
      ("answer_direction", JStr "Need more information")]);
    ("context_analysis", JObj [
      ("problem_stage", JStr "exploring");
      ("user_intent", JStr "Unknown - conversation just started");
      ("key_entities", JArr []);
      ("assumptions_made", JArr []);
      ("gaps_identified",
       JArr [JStr "Problem definition"; JStr "Context"; JStr "Constraints"]);
      ("emotional_tone", JStr "Neutral")]);
    ("framework_signals", JObj [
      ("needs_discovery", JBool true);
      ("needs_validation", JBool false);
      ("problem_type_fit", JStr "undefined");
      ("complexity_fit", JStr "complex");
      ("suggested_phase", JStr "discovery")])].

(** [[m["content"] for m in conversation if m["role"] == "user"]] *)
Definition user_messages (conversation : list Message) : list string :=
  map content (List.filter (fun m => String.eqb (role m) "user") conversation).

(** [user_messages[-1] if user_messages else ""] *)
Definition latest_user (conversation : list Message) : string :=
  default "" (last (user_messages conversation)).

(** [latest_user[:200] if latest_user else "What's the problem?"] *)
Definition fallback_question (conversation : list Message) : string :=
  if nonempty (latest_user conversation)
  then take_str 200 (latest_user conversation)
  else "What's the problem?".

(** [MintoAnalyzer._fallback_pyramid] *)
Definition _fallback_pyramid (conversation : list Message) (error : string) : json :=
  JObj [
    ("pyramid", JObj [
      ("governing_thought",
       JStr ("User is exploring: " +:+ take_str 100 (latest_user conversation) +:+ "..."));
      ("key_arguments", JArr [
         JObj [("argument", JStr "Conversation in progress");
               ("evidence",
                JArr [JStr ("User messages: "
                            +:+ pretty (length (user_messages conversation)))])]])]);
    ("scqa", JObj [
      ("situation", JStr "Conversation ongoing");
      ("complication", JStr "Analysis needed");
      ("question", JStr (fallback_question conversation));
      ("answer_direction", JStr "Requires further exploration")]);
    ("context_analysis", JObj [
      ("problem_stage", JStr "exploring");
      ("user_intent", JStr "Seeking guidance");
      ("key_entities", JArr []);
      ("assumptions_made", JArr []);
      ("gaps_identified", JArr [JStr "Full context analysis"]);
      ("emotional_tone", JStr "Unknown")]);
    ("framework_signals", JObj [
      ("needs_discovery", JBool true);
      ("needs_validation", JBool false);
      ("problem_type_fit", JStr "undefined");
      ("complexity_fit", JStr "complex");
      ("suggested_phase", JStr "discovery")]);
    ("_error", JStr error)].

(** [MintoAnalyzer.analyze]; the diagnosis only feeds the prompt, and an
    empty conversation is answered without an inference call. *)
Definition analyze (conversation : list Message) (u : upstream) : json :=
  if (length conversation <? 1)%nat then _default_pyramid
  else match u with
       | Parsed result => result
       | Raised e => _fallback_pyramid conversation e
       end.

(** A decoded list of strings. *)
Definition strings_of (x : json) : option (list string) :=
  match x with
  | JArr items =>
      mapM (fun item => match item with JStr s => Some s | _ => None end) items
  | _ => None
  end.

(** The two keys of a pyramid that the recommender reads, for a pyramid
    that is a dict whose [detected_signals], when present, is a list of
    strings and whose [primary_signal], when present, is a string. *)
Definition pyramid_of (x : json) : option Recommender.Pyramid.t :=
  match x with
  | JObj fields =>
      detected_signals ←
        match assoc "detected_signals" fields with
        | None => Some None
        | Some v => Some <$> strings_of v
        end;
      primary_signal ←
        match assoc "primary_signal" fields with
        | None => Some None
        | Some (JStr s) => Some (Some s)
        | Some _ => None
        end;
      Some {| Recommender.Pyramid.detected_signals := detected_signals;
              Recommender.Pyramid.primary_signal := primary_signal |}
  | _ => None
  end.
End Minto.

(** ** The recommender: the signal table *)

Module RecommenderFacts.
Import Recommender.

(** [signal_frameworks[signal][0]], when the signal is in the table. *)
Definition table_id (signal : string) : option string :=
  (fun entry => entry.1.1) <$> signal_frameworks !! signal.

(** The [full_data] that the enrichment loops attach for a catalog id;
    [required_concepts] is stored by [_enrich_recommendations] only. *)
Definition catalog_data (with_concepts : bool) (framework : Frameworks.FrameworkTemplate)
  : FullData.t :=
  {| FullData.title := Frameworks.title framework;
     FullData.definition := Frameworks.definition framework;
     FullData.key_questions := Frameworks.key_questions framework;
     FullData.output_structure := Frameworks.output_structure framework;
     FullData.required_concepts :=
       if with_concepts then Some (Frameworks.required_concepts framework) else None |}.


End RecommenderFacts.

(** ** The executor: fallback ids *)

Module ExecutorFacts.
(** A character that [lower] and the two [replace] calls leave alone. *)
Definition slug_char (c : ascii) : Prop :=
  c <> " "%char /\ c <> "-"%char
  /\ ~ (65 <= nat_of_ascii c <= 90)%nat.
End ExecutorFacts.

(** ** The executor: citations of a grounded response *)

Module Grounding.
Import Text.

(** An attribute of an object of the inference library, as
    [hasattr(ctx, 'a')] and [ctx.a] see it: the object has no such
    attribute, the attribute holds [None], or it holds a str. *)
Inductive attribute : Type :=
| NoAttribute
| HoldsNone
| Holds (s : string).

(** The retrieved context of a grounding chunk. *)
Module Retrieved.
Record t : Type := {
  title : attribute;
  text : attribute
}.
End Retrieved.

(** A grounding chunk; [None] is a missing or empty [retrieved_context]. *)
Module Chunk.
Record t : Type := {
  retrieved_context : option Retrieved.t
}.
End Chunk.

(** The part of a response that [_extract_citations] reads: the grounding
    chunks of the first candidate; [None] when the response has no
    candidate, no grounding metadata or no chunk list. *)
Module Response.
Record t : Type := {
  grounding_chunks : option (list Chunk.t)
}.
End Response.

(** A citation dict as [_extract_citations] builds it; [None] under
    [title] or [text] is Python's [None]. *)
Module Cited.
Record t : Type := {
  title : option string;
  text : option string;
  source : string
}.
End Cited.

(** [ctx.title if hasattr(ctx, 'title') else "Document"] *)
Definition title_of (ctx : Retrieved.t) : option string :=
  match Retrieved.title ctx with
  | NoAttribute => Some "Document"
  | HoldsNone => None
  | Holds s => Some s
  end.

(** The [text] of a citation: an excerpt of 300 characters followed by
    three dots when the text is longer, else the text, the empty string
    for an object without the attribute. *)
Definition excerpt (ctx : Retrieved.t) : option string :=
  match Retrieved.text ctx with
  | Holds t =>
      if nonempty t && (300 <? String.length t)%nat
      then Some (take_str 300 t +:+ "...")
      else Some t
  | HoldsNone => None
  | NoAttribute => Some ""
  end.

(** The body of the loop over the chunks; the state is the list
    [citations] and the set [seen_titles]. *)
Definition chunk_step (st : list Cited.t * gset (option string)) (chunk : Chunk.t)
  : list Cited.t * gset (option string) :=
  let '(citations, seen_titles) := st in
  match Chunk.retrieved_context chunk with
  | Some ctx =>
      let title := title_of ctx in
      if bool_decide (title ∈ seen_titles) then st
      else
        (citations ++
           [{| Cited.title := title;
               Cited.text := excerpt ctx;
               Cited.source := "PWS Knowledge Base" |}],
         {[title]} ∪ seen_titles)
  | None => st
  end.

(** [FrameworkExecutor._extract_citations], for a response whose
    attributes can be read without an exception. *)
Definition _extract_citations (response : Response.t) : list Cited.t :=
  match Response.grounding_chunks response with
  | Some chunks => fst (foldl chunk_step ([], ∅) chunks)
  | None => []
  end.

(** The titles under which the chunks of a response are cited. *)
Definition chunk_titles (response : Response.t) : list (option string) :=
  omap (fun chunk => title_of <$> Chunk.retrieved_context chunk)
       (default [] (Response.grounding_chunks response)).

Definition cited_titles (citations : list Cited.t) : list (option string) :=
  map Cited.title citations.

(** What every extracted citation satisfies. *)
Definition well_formed (c : Cited.t) : Prop :=
  (forall text, Cited.text c = Some text -> String.length text <= 303)%nat
  /\ Cited.source c = "PWS Knowledge Base".
End Grounding.

(** ** The consolidator: outcomes *)

Module ConsolidatorFacts.
Import Executor Consolidator PromptReads.

(** [consolidate] with the reads of the context analysis: for two results
    or more the prompt is built, before the [try] block. *)
Definition consolidate_reading (pyramid_analysis : json)
  (framework_results : list Result.t) (u : upstream) : py Report.t :=
  match framework_results with
  | _ :: _ :: _ =>
      _ ← read_scqa pyramid_analysis;
      consolidate framework_results u
  | _ => consolidate framework_results u
  end.

(** A result whose ["framework_analysis"] is not [None]: [.get] can be
    called on what [result.get("framework_analysis", {})] returns. *)
Definition has_analysis (result : Result.t) : bool :=
  match Result.framework_analysis result with
  | IsNone => false
  | _ => true
  end.


(** The dict that [result.get("framework_analysis", {})] returns, when it
    is one. *)
Definition analysis_or_empty (result : Result.t) : Analysis.t :=
  match Result.framework_analysis result with
  | Dict a => a
  | _ => Analysis.empty
  end.

Definition insights_of (result : Result.t) : list string :=
  default [] (Analysis.insights (analysis_or_empty result)).

Definition opportunities_of (result : Result.t) : list string :=
  default [] (Analysis.opportunities (analysis_or_empty result)).

Definition risks_of (result : Result.t) : list string :=
  default [] (Analysis.risks_or_gaps (analysis_or_empty result)).

Definition attribute_error : string :=
  "AttributeError: 'NoneType' object has no attribute 'get'".

(** The entry of [framework_contributions] for one result. *)
Definition contribution_of (r : Result.t) : Contribution.t :=
  {| Contribution.framework_id := Some (default "unknown" (Result.framework_id r));
     Contribution.framework_title := Some (default "Unknown" (Result.framework_title r));
     Contribution.key_contribution :=
       default "Analysis provided" (Analysis.summary (analysis_or_empty r));
     Contribution.best_insight :=
       first_or (Analysis.insights (analysis_or_empty r)) "N/A" |}.
End ConsolidatorFacts.

(** ** Execution followed by consolidation *)

Module Pipeline.
Import Executor Consolidator PromptReads ConsolidatorFacts.

(** [fid in ALL_FRAMEWORKS] *)
Definition in_catalog (framework_id : string) : bool :=
  bool_decide (is_Some (Frameworks.ALL_FRAMEWORKS !! framework_id)).

(** The decoded answer of an execution does not hold [None] under
    ["framework_analysis"]; a failed execution has no decoded answer. *)
Definition answer_has_analysis (u : Executor.upstream) : bool :=
  match u with
  | Executor.Raised _ => true
  | Executor.Parsed result _ => has_analysis result
  end.

(** [execute] with the reads of the context analysis: an unknown id is
    answered before the prompt is built, a known one after. *)
Definition execute_reading (pyramid_analysis : json) (framework_id : string)
  (u : Executor.upstream) : py Result.t :=
  if in_catalog framework_id then
    _ ← read_scqa pyramid_analysis;
    Ret (execute framework_id u)
  else Ret (execute framework_id u).

(** The framework step of the application, for a run that is not
    cancelled.  [requests] lists the selected ids in the order their
    executions complete, each with the outcome of its inference call.  An
    execution that raises is reported and gives no result; the results
    that were returned are consolidated when there is one at least. *)
Definition run_frameworks (pyramid_analysis : json)
  (requests : list (string * Executor.upstream)) (u : Consolidator.upstream)
  : option (py Report.t) :=
  let results :=
    omap (fun request =>
            match execute_reading pyramid_analysis request.1 request.2 with
            | Ret result => Some result
            | Raise _ => None
            end)
         requests in
  match results with
  | [] => None
  | _ => Some (consolidate_reading pyramid_analysis results u)
  end.

End Pipeline.

(** ** The research agent: queries, sources and synthesis *)

Module ResearchFlow.
Import Research Text.

(** The context analysis, with the keys of the answer format of
    [_analyze_context]; a key may be missing. *)
Module Context.
Record t : Type := {
  core_question : option string;
  user_hypothesis : option string;
  needs_validation : option (list string);
  needs_challenging : option (list string);
  potential_blind_spots : option (list string);
  industry_context : option string;
  user_stage : option string
}.
End Context.

(** Outcome of the [try] block of [_analyze_context]. *)
Inductive context_upstream : Type :=
| ContextRaised
| ContextParsed (context : Context.t).

(** Outcome of the [try] block of [_generate_queries], up to
    [json.loads]. *)
Inductive queries_upstream : Type :=
| QueriesRaised
| QueriesParsed (queries : list string).

(** Outcome of the [try] block of [_synthesize_findings]: it raised (the
    call, the decoding, or the assignment of a key to a decoded value that
    is no dict), or the answer was decoded to a dict. *)
Inductive synthesis_upstream : Type :=
| SynthesisRaised (e : string)
| SynthesisParsed (fields : list (string * json)).

(** [ResearchAgent._analyze_context]; the reads of the diagnosis precede
    the [try] block. *)
Definition _analyze_context (diagnosis : json) (u : context_upstream)
  : py Context.t :=
  profile ← get diagnosis "profile" (JObj []);
  _ ← get profile "name" (JStr "Unknown");
  Ret match u with
      | ContextParsed context => context
      | ContextRaised =>
          {| Context.core_question := Some "Understanding the problem space";
             Context.user_hypothesis := Some "Initial exploration";
             Context.needs_validation := Some ["Market demand"; "Solution feasibility"];
             Context.needs_challenging := Some ["Assumptions about users"];
             Context.potential_blind_spots :=
               Some ["Competition"; "Alternative solutions"];
             Context.industry_context := Some "General";
             Context.user_stage := Some "exploring" |}
      end.

(** [ResearchAgent._generate_queries] *)
Definition _generate_queries (context : Context.t) (u : queries_upstream)
  : list string :=
  let core_q := default "" (Context.core_question context) in
  let hypothesis := default "" (Context.user_hypothesis context) in
  let industry := default "" (Context.industry_context context) in
  match u with
  | QueriesParsed queries => take 7 queries
  | QueriesRaised =>
      [core_q +:+ " market research";
       core_q +:+ " case studies";
       core_q +:+ " challenges failures";
       hypothesis +:+ " validation data";
       industry +:+ " trends 2024 2025"]
  end.

(** One entry of [all_sources]. *)
Module Source.
Record t : Type := {
  index : nat;
  title : json;
  url : json;
  content : json;
  query : string
}.
End Source.

(** [for result in v]: a list gives its items, a dict its keys, a str its
    characters; nothing else can be iterated. *)
Definition iterate (v : json) : py (list json) :=
  match v with
  | JArr items => Ret items
  | JObj fields => Ret (map (fun kv => JStr kv.1) fields)
  | JStr s => Ret (map (fun c => JStr (String c EmptyString)) (list_ascii_of_string s))
  | _ => Raise "TypeError: object is not iterable"
  end.

(** [v[:n]]: a str and a list can be sliced. *)
Definition slice (n : nat) (v : json) : py json :=
  match v with
  | JStr s => Ret (JStr (take_str n s))
  | JArr items => Ret (JArr (take n items))
  | _ => Raise "TypeError: object is not subscriptable"
  end.

(** The body of the loop over the hits of one search. *)
Definition source_of (source_index : nat) (query : string) (result : json)
  : py Source.t :=
  fallback ← get result "content" (JStr "");
  raw ← get result "raw_content" fallback;
  content ← slice 800 raw;
  title ← get result "title" (JStr "Source");
  url ← get result "url" (JStr "");
  Ret {| Source.index := source_index;
         Source.title := title;
         Source.url := url;
         Source.content := content;
         Source.query := query |}.

Fixpoint hits_loop (query : string) (results : list json)
  (st : nat * list Source.t) : py (nat * list Source.t) :=
  match results with
  | [] => Ret st
  | result :: rest =>
      source ← source_of st.1 query result;
      hits_loop query rest (S st.1, st.2 ++ [source])
  end.

(** The loop of [_synthesize_findings] that numbers the sources; it
    precedes the [try] block. *)
Fixpoint sources_loop (search_results : list SearchResult.t)
  (st : nat * list Source.t) : py (nat * list Source.t) :=
  match search_results with
  | [] => Ret st
  | sr :: rest =>
      results ← iterate (SearchResult.results sr);
      st' ← hits_loop (SearchResult.query sr) results st;
      sources_loop rest st'
  end.

Definition collect_sources (search_results : list SearchResult.t)
  : py (list Source.t) :=
  snd <$> sources_loop search_results (1%nat, []).

(** One row of the citation table of the fallback. *)
Module Row.
Record t : Type := {
  rank : nat;
  title : json;
  url : json;
  source_type : string;
  relevance_score : Q;
  credibility_score : Q;
  key_quote : string;
  finding : string;
  reasoning : string;
  stance : string
}.
End Row.

(** [s["content"][:150] + "..."]: a list cannot be extended by a str. *)
Definition key_quote_of (content : json) : py string :=
  match content with
  | JStr s => Ret (take_str 150 s +:+ "...")
  | JArr _ => Raise "TypeError: can only concatenate list to list"
  | _ => Raise "TypeError: object is not subscriptable"
  end.

Fixpoint rows (i : nat) (sources : list Source.t) : py (list Row.t) :=
  match sources with
  | [] => Ret []
  | s :: rest =>
      key_quote ← key_quote_of (Source.content s);
      others ← rows (S i) rest;
      Ret ({| Row.rank := i + 1;
              Row.title := Source.title s;
              Row.url := Source.url s;
              Row.source_type := "Web Source";
              Row.relevance_score := 7.0;
              Row.credibility_score := 6.0;
              Row.key_quote := key_quote;
              Row.finding := "Information related to: " +:+ Source.query s;
              Row.reasoning := "Source found during research";
              Row.stance := "nuances" |} :: others)
  end.

(** The dict returned by [_fallback_synthesis]; its constant entries are
    kept as the values they are. *)
Module FallbackReport.
Record t : Type := {
  research_context : string * string * string;
  executive_summary : string;
  citation_table : list Row.t;
  validation_evidence : json;
  challenge_evidence : json;
  alternative_perspectives : json;
  blind_spots_identified : list string;
  synthesis_insights : json;
  research_quality : json;
  actionable_recommendations : json;
  raw_sources : list Source.t;
  context_analysis : Context.t;
  _error : string
}.
End FallbackReport.

(** [ResearchAgent._fallback_synthesis] *)
Definition _fallback_synthesis (context : Context.t) (sources : list Source.t)
  (error : string) : py FallbackReport.t :=
  citation_table ← rows 0 (take 8 sources);
  Ret {| FallbackReport.research_context :=
           (default "Research question" (Context.core_question context),
            default "Unknown" (Context.user_hypothesis context),
            "General exploration");
         FallbackReport.executive_summary :=
           "Found " +:+ pretty (length sources)
           +:+ " relevant sources. Review the citation table for detailed findings.";
         FallbackReport.citation_table := citation_table;
         FallbackReport.validation_evidence :=
           JObj [("summary", JStr "Review sources for validation evidence");
                 ("findings", JArr [])];
         FallbackReport.challenge_evidence :=
           JObj [("summary", JStr "Review sources for challenging perspectives");
                 ("findings", JArr [])];
         FallbackReport.alternative_perspectives := JArr [];
         FallbackReport.blind_spots_identified :=
           default [] (Context.potential_blind_spots context);
         FallbackReport.synthesis_insights := JArr [];
         FallbackReport.research_quality :=
           JObj [("coverage", JStr "Partial");
                 ("gaps", JArr [JStr "Full synthesis unavailable"]);
                 ("confidence_level", JStr "medium");
                 ("recommended_follow_up", JArr [])];
         FallbackReport.actionable_recommendations :=
           JArr [JObj [("recommendation",
                        JStr "Review the sources in the citation table");
                       ("based_on", JStr "Research results");
                       ("priority", JStr "immediate");
                       ("expected_outcome",
                        JStr "Better understanding of the problem space")]];
         FallbackReport.raw_sources := sources;
         FallbackReport.context_analysis := context;
         FallbackReport._error := error |}.

(** What [_synthesize_findings] returns: the decoded dict, to which the
    sources and the context have been added under [raw_sources] and
    [context_analysis], or the fallback report. *)
Inductive synthesis : Type :=
| Synthesized (fields : list (string * json))
    (raw_sources : list Source.t) (context_analysis : Context.t)
| Fallback (report : FallbackReport.t).

(** [ResearchAgent._synthesize_findings] *)
Definition _synthesize_findings (context : Context.t)
  (search_results : list SearchResult.t) (u : synthesis_upstream) : py synthesis :=
  all_sources ← collect_sources search_results;
  match u with
  | SynthesisParsed fields => Ret (Synthesized fields all_sources context)
  | SynthesisRaised e => Fallback <$> _fallback_synthesis context all_sources e
  end.

(** [ResearchAgent.research]; [post] is the search provider. *)
Definition research (tavily_api_key : option string) (post : string -> http)
  (diagnosis : json) (u_context : context_upstream) (u_queries : queries_upstream)
  (u_synthesis : synthesis_upstream) : py synthesis :=
  context_analysis ← _analyze_context diagnosis u_context;
  let queries := _generate_queries context_analysis u_queries in
  let search_results := _execute_searches tavily_api_key post queries in
  _synthesize_findings context_analysis search_results u_synthesis.

(** The sources of a returned synthesis. *)
Definition raw_sources_of (s : synthesis) : list Source.t :=
  match s with
  | Synthesized _ raw_sources _ => raw_sources
  | Fallback report => FallbackReport.raw_sources report
  end.

(** The number of hits of a search whose result list is a list. *)
Definition hits (sr : SearchResult.t) : list json :=
  match SearchResult.results sr with
  | JArr items => items
  | _ => []
  end.

(** The length of a sliced content. *)
Definition content_length (content : json) : nat :=
  match content with
  | JStr s => String.length s
  | JArr items => length items
  | _ => 0
  end.

(** The state of the numbering loop: the next index is one more than the
    number of sources, which are numbered from 1. *)
Definition numbered (st : nat * list Source.t) : Prop :=
  st.1 = S (length st.2)
  /\ map Source.index st.2 = seq 1 (length st.2)
  /\ Forall (fun s => content_length (Source.content s) <= 800)%nat st.2.
End ResearchFlow.

(** ** Sample inputs of the further properties *)

Module Examples.
Import Diagnosis.

Definition question : Message :=
  {| role := "user"; content := "Why do enterprise customers churn after onboarding?" |}.

Definition reply : Message :=
  {| role := "assistant"; content := "Which onboarding step do they drop at?" |}.

(** An old message followed by ten recent ones. *)
Definition old_message : Message :=
  {| role := "user"; content := "Hello" |}.

Definition ten_messages : list Message :=
  [question; reply; question; reply; question; reply; question; reply; question; reply].


(** A context analysis whose only detected signal has no catalog
    framework. *)
Definition strategic_choice : Recommender.Pyramid.t :=
  {| Recommender.Pyramid.detected_signals := Some ["strategic_choice"];
     Recommender.Pyramid.primary_signal := Some "strategic_choice" |}.

Definition context : ResearchFlow.Context.t :=
  {| ResearchFlow.Context.core_question := Some "Why do enterprise customers churn?";
     ResearchFlow.Context.user_hypothesis := Some "Onboarding is too long";
     ResearchFlow.Context.needs_validation := Some ["Onboarding length"];
     ResearchFlow.Context.needs_challenging := Some ["Pricing is fine"];
     ResearchFlow.Context.potential_blind_spots := Some ["Competitors"];
     ResearchFlow.Context.industry_context := Some "B2B SaaS";
     ResearchFlow.Context.user_stage := Some "exploring" |}.

(** A search with two hits, the second without raw content. *)
Definition two_hits : Research.SearchResult.t :=
  {| Research.SearchResult.query := "enterprise churn onboarding";
     Research.SearchResult.answer := Some (JStr "Churn peaks in month two.");
     Research.SearchResult.results :=
       JArr [JObj [("title", JStr "Churn benchmarks");
                   ("url", JStr "https://example.org/churn");
                   ("content", JStr "Median churn is 5%.");
                   ("raw_content", JStr "Median churn is 5% in B2B SaaS.")];
             JObj [("title", JStr "Onboarding study");
                   ("url", JStr "https://example.org/onboarding");
                   ("content", JStr "Long onboarding doubles churn.")]];
     Research.SearchResult.error := None |}.

(** A search whose hit was returned with [raw_content] null. *)
Definition null_raw_content : Research.SearchResult.t :=
  {| Research.SearchResult.query := "enterprise churn onboarding";
     Research.SearchResult.answer := None;
     Research.SearchResult.results :=
       JArr [JObj [("title", JStr "Churn benchmarks");
                   ("content", JStr "Median churn is 5%.");
                   ("raw_content", JNull)]];
     Research.SearchResult.error := None |}.
End Examples.

(** * Properties *)

(** ** Classifier agents *)

Section ClassifierProperties.
Import Classifiers.




End ClassifierProperties.

(** ** Diagnosis consolidator *)

Section DiagnosisProperties.
Import Classifiers Diagnosis.

Lemma get_obj (m : list (string * json)) (k : string) (d : json) :
  get (JObj m) k d = Ret (Spec.field_or (JObj m) k d).
Proof.
  unfold get, Spec.field_or. simpl. destruct (assoc k m); reflexivity.
Qed.





(** The classifier agents answer a failure with a dict. *)
Lemma failure_outputs_are_dicts (e1 e2 e3 e4 : string) :
  Spec.outputs_are_dicts
    (DefinitionClassifier_classify (Raised e1))
    (ComplexityAssessor_assess (Raised e2))
    (RiskUncertaintyEvaluator_evaluate (Raised e3))
    (WicknessClassifier_classify (Raised e4)) = true.
Proof. reflexivity. Qed.







End DiagnosisProperties.

(** ** Framework recommender *)

Section RecommenderProperties.
Import Recommender.

Lemma enrich_fallback_id (rec : Recommendation.t) :
  Recommendation.framework_id (enrich_fallback rec) = Recommendation.framework_id rec.
Proof.
  unfold enrich_fallback. destruct (Frameworks.ALL_FRAMEWORKS !! _); reflexivity.
Qed.

Lemma ids_enrich (recs : list Recommendation.t) :
  ids_of (map enrich_fallback recs) = ids_of recs.
Proof.
  unfold ids_of. rewrite map_map. apply map_ext. intros; apply enrich_fallback_id.
Qed.

Ltac in_catalog :=
  match goal with
  | |- is_Some ?x =>
      let E := fresh "E" in
      destruct x eqn:E; [eauto | vm_compute in E; discriminate E]
  end.






End RecommenderProperties.

(** ** Framework executor *)

Section ExecutorProperties.
Import Executor.

(** C7, as stated, fails: the fallback for jobs_to_be_done answers the
    first three of the five key questions; the fourth has no answer. *)
Lemma execute_fallback_counterexample :
  exists framework,
    Frameworks.ALL_FRAMEWORKS !! "jobs_to_be_done" = Some framework
    /\ "What alternatives do they currently use?" ∈ Frameworks.key_questions framework
    /\ "What alternatives do they currently use?"
       ∉ map Answer.question
           (answers (execute "jobs_to_be_done" (Raised "deadline exceeded"))).
Proof.
  destruct (Frameworks.ALL_FRAMEWORKS !! "jobs_to_be_done") as [framework|] eqn:Hfw;
    [|vm_compute in Hfw; discriminate].
  exists framework. split; [reflexivity|].
  vm_compute in Hfw. injection Hfw as <-. split.
  - cbn [Frameworks.key_questions]. set_solver.
  - vm_compute. intros H.
    repeat (apply elem_of_cons in H as [H|H]; [discriminate|]). inversion H.
Qed.

(** C7, amended: for every framework of the catalog and every failing
    execution with message [e], [execute] returns (it is a total function)
    the fallback analysis in which the first three key questions of the
    framework are answered with the placeholder, every key of its
    [output_structure] is filled with "To be determined", the confidence
    level is 0.4 and [e] is recorded under [_error]. *)
Theorem execute_failure_returns_fallback
  (framework_id : string) (framework : Frameworks.FrameworkTemplate) (e : string) :
  Frameworks.ALL_FRAMEWORKS !! framework_id = Some framework ->
  exists analysis,
    Result.framework_analysis (execute framework_id (Raised e)) = Dict analysis
    /\ map Answer.question (Analysis.key_questions_answered analysis)
       = take 3 (Frameworks.key_questions framework)
    /\ Forall (fun a => Answer.answer a
                        = "Analysis pending - requires deeper exploration")
              (Analysis.key_questions_answered analysis)
    /\ map fst (Analysis.framework_output analysis)
       = map fst (Frameworks.output_structure framework)
    /\ Forall (fun kv => snd kv = "To be determined")
              (Analysis.framework_output analysis)
    /\ Result.confidence_level (execute framework_id (Raised e)) = Some 0.4%Q
    /\ Result._error (execute framework_id (Raised e)) = Some e.
Proof.
  intros Hfw. unfold execute. rewrite Hfw. unfold _fallback_execution.
  cbn [Result.framework_analysis Result.confidence_level Result._error].
  eexists. split; [reflexivity|].
  cbn [Analysis.key_questions_answered Analysis.framework_output].
  split_and!; try reflexivity.
  - rewrite map_map. cbn [placeholder_answer Answer.question]. apply map_id.
  - apply Forall_forall. intros a Ha. apply list_elem_of_fmap in Ha as (q & -> & _).
    reflexivity.
  - rewrite map_map. reflexivity.
  - apply Forall_forall. intros kv Hkv. apply list_elem_of_fmap in Hkv as (kd & -> & _).
    reflexivity.
Qed.

(** The fallback of heart_framework. *)
Lemma execute_failure_returns_fallback_witness :
  Result.confidence_level (execute "heart_framework" (Raised "deadline exceeded"))
  = Some 0.4%Q
  /\ Result._error (execute "heart_framework" (Raised "deadline exceeded"))
     = Some "deadline exceeded".
Proof.
  destruct (Frameworks.ALL_FRAMEWORKS !! "heart_framework") as [framework|] eqn:Hfw;
    [|vm_compute in Hfw; discriminate].
  destruct (execute_failure_returns_fallback
              "heart_framework" framework "deadline exceeded" Hfw)
    as (analysis & _ & _ & _ & _ & _ & Hconfidence & Herror).
  split; assumption.
Defined.
End ExecutorProperties.

(** ** Research agent *)

Section ResearchProperties.
Import Research.

(** C9: when no API key is configured, [_execute_searches] returns one
    entry per query, in order, each carrying the error "Tavily API key not
    configured" beside its empty result list; a configured search that
    succeeds, also with zero results, carries no error, so the two cases
    differ. *)
Theorem unconfigured_search_is_marked
  (tavily_api_key : option string) (post : string -> http) (queries : list string) :
  configured tavily_api_key = false ->
  _execute_searches tavily_api_key post queries = map not_configured queries
  /\ map SearchResult.query (_execute_searches tavily_api_key post queries) = queries
  /\ Forall (fun entry =>
               SearchResult.error entry = Some "Tavily API key not configured"
               /\ SearchResult.results entry = JArr [])
            (_execute_searches tavily_api_key post queries)
  /\ (forall key' post' query data,
         configured key' = true ->
         post' (query +:+ " 2023 OR 2024 OR 2025") = HttpResponse 200 (Ret (JObj data)) ->
         Forall (fun entry => SearchResult.error entry = None)
                (_execute_searches key' post' [query])).
Proof.
  intros Hkey. unfold _execute_searches. rewrite Hkey. cbn [negb].
  split_and!.
  - reflexivity.
  - rewrite map_map. apply map_id.
  - apply Forall_forall. intros entry He.
    apply list_elem_of_fmap in He as (q & -> & _). split; reflexivity.
  - intros key' post' query data Hkey' Hpost. rewrite Hkey'. cbn [negb map].
    constructor; [|constructor]. unfold search_one. rewrite Hpost.
    cbn. destruct (assoc "answer" data), (assoc "results" data); reflexivity.
Qed.

(** Two queries without a key, and one query with a key and an empty page. *)
Lemma unconfigured_search_is_marked_witness :
  map SearchResult.error
    (_execute_searches None (fun _ => Samples.empty_page)
       ["churn by region"; "support vs sales"])
  = [Some "Tavily API key not configured"; Some "Tavily API key not configured"]
  /\ map SearchResult.error
       (_execute_searches (Some "tvly-key") (fun _ => Samples.empty_page)
          ["churn by region"])
     = [None].
Proof.
  destruct (unconfigured_search_is_marked None (fun _ => Samples.empty_page)
              ["churn by region"; "support vs sales"] eq_refl) as (Heq & _ & _ & _).
  rewrite Heq. split; reflexivity.
Defined.
End ResearchProperties.

(** ** Framework consolidator *)

Section ConsolidatorProperties.
Import Executor Consolidator.




(** The two nested loops visit the occurrences in order. *)
Lemma merge_as_occurrences (framework_results : list Result.t) st :
  foldl result_step st framework_results
  = foldl occurrence_step st (occurrences framework_results).
Proof.
  revert st. induction framework_results as [|r rs IH]; intros st; [reflexivity|].
  cbn [foldl occurrences flat_map]. rewrite foldl_app, IH. f_equal.
  unfold result_step, fid_of, citations_of.
  generalize (default [] (Result.citations r)).
  generalize (default "unknown" (Result.framework_id r)).
  clear. intros fid cs. revert st.
  induction cs as [|c cs IH]; intros st; [reflexivity|]. simpl. apply IH.
Qed.

Lemma elem_of_occurrences framework_results fid citation :
  (fid, citation) ∈ occurrences framework_results
  <-> exists result, result ∈ framework_results
                     /\ citation ∈ citations_of result /\ fid_of result = fid.
Proof.
  unfold occurrences. rewrite list_elem_of_In, in_flat_map. split.
  - intros (r & Hr & Hc). apply list_elem_of_In in Hr. apply list_elem_of_In in Hc.
    apply list_elem_of_fmap in Hc as (c & Heq & Hc). injection Heq as -> ->. eauto.
  - intros (r & Hr & Hc & <-). exists r. rewrite <- !list_elem_of_In. split; [done|].
    apply list_elem_of_fmap. eauto.
Qed.

(** With distinct titles the inner loop updates the one entry of the title. *)
Lemma add_to_existing_map (title fid : string) (all_citations : list Citation.t) :
  NoDup (titles all_citations) ->
  add_to_existing title fid all_citations
  = map (fun existing =>
           if String.eqb (Citation.title existing) title
           then set_used_by existing
                  (default [] (Citation.used_by_frameworks existing) ++ [fid])
           else existing) all_citations.
Proof.
  induction all_citations as [|c cs IH]; intros Hnd; [reflexivity|].
  simpl. apply NoDup_cons in Hnd as [Hc Hnd].
  destruct (String.eqb_spec (Citation.title c) title) as [Heq|Hne].
  - f_equal. clear IH. induction cs as [|c' cs IH]; [reflexivity|].
    simpl in *. apply not_elem_of_cons in Hc as [Hc' Hc].
    apply NoDup_cons in Hnd as [_ Hnd].
    destruct (String.eqb_spec (Citation.title c') title) as [Heq'|_]; [congruence|].
    f_equal. by apply IH.
  - f_equal. by apply IH.
Qed.

Lemma merged_state_step st done oc :
  merged_state st done -> merged_state (occurrence_step st oc) (done ++ [oc]).
Proof.
  destruct st as [all seen], oc as [fid c].
  intros (Hnd & Hseen & Htitles & Hids). unfold occurrence_step, citation_step.
  cbn [fst snd] in *.
  destruct (String.eqb_spec (Citation.title c) "") as [Hempty|Hnonempty]; cbn [negb andb].
  - (* no title: the citation is skipped *)
    case_bool_decide as Hin.
    { exfalso. apply Hseen, Htitles in Hin as [Hin _]. done. }
    split_and!; cbn [fst snd]; try done.
    + intros t. rewrite Htitles. split.
      * intros [Ht (oc & Hoc & Heq)]. split; [done|]. exists oc. split; [|done].
        apply elem_of_app. by left.
      * intros [Ht (oc & Hoc & Heq)]. split; [done|].
        apply elem_of_app in Hoc as [Hoc|Hoc]; [eauto|].
        apply list_elem_of_singleton in Hoc as ->. simpl in Heq. congruence.
    + intros entry He. destruct (Hids entry He) as (ids & Hu & Hi). exists ids.
      split; [done|]. intros f. rewrite Hi, map_app, elem_of_app. split; [by left|].
      intros [?|Hnew]; [done|]. simpl in Hnew. apply list_elem_of_singleton in Hnew.
      injection Hnew as _ Hnew.
      assert (Citation.title entry ∈ titles all) as Ht.
      { apply list_elem_of_fmap. eauto. }
      apply Htitles in Ht as [Ht _]. congruence.
  - case_bool_decide as Hin; cbn [negb].
    + (* a title seen before: its entry gets the id *)
      rewrite add_to_existing_map by done.
      assert (Hsame : titles (map (fun existing =>
           if String.eqb (Citation.title existing) (Citation.title c)
           then set_used_by existing
                  (default [] (Citation.used_by_frameworks existing) ++ [fid])
           else existing) all) = titles all).
      { unfold titles. rewrite map_map. apply map_ext. intros e.
        destruct (String.eqb _ _); reflexivity. }
      split_and!; cbn [fst snd]; rewrite ?Hsame; try done.
      * intros t. rewrite Htitles. split.
        -- intros [Ht (oc & Hoc & Heq)]. split; [done|]. exists oc. split; [|done].
           apply elem_of_app. by left.
        -- intros [Ht (oc & Hoc & Heq)]. split; [done|].
           apply elem_of_app in Hoc as [Hoc|Hoc]; [eauto|].
           apply list_elem_of_singleton in Hoc as ->. simpl in Heq. subst t.
           apply Hseen, Htitles in Hin as [_ Hin]. done.
      * intros entry He. apply list_elem_of_fmap in He as (e & -> & He).
        destruct (Hids e He) as (ids & Hu & Hi).
        destruct (String.eqb_spec (Citation.title e) (Citation.title c)) as [Heq|Hne].
        -- exists (ids ++ [fid]). rewrite Hu. split; [reflexivity|].
           intros f. cbn [set_used_by Citation.title].
           rewrite elem_of_app, Hi, map_app, elem_of_app. simpl.
           rewrite !list_elem_of_singleton, Heq. split.
           ++ intros [?| ->]; [by left|by right].
           ++ intros [?|Hf]; [by left|]. injection Hf as ->. by right.
        -- exists ids. split; [done|]. intros f.
           rewrite Hi, map_app, elem_of_app. split; [by left|].
           intros [?|Hnew]; [done|]. simpl in Hnew.
           apply list_elem_of_singleton in Hnew. injection Hnew as _ Hnew. done.
    + (* a new title: the citation becomes an entry *)
      assert (Hfresh : Citation.title c ∉ titles all) by (by rewrite <- Hseen).
      split_and!; cbn [fst snd].
      * unfold titles. rewrite map_app. apply NoDup_app. split_and!; [done| |].
        -- intros t Ht Ht'. simpl in Ht'. apply list_elem_of_singleton in Ht' as ->. done.
        -- simpl. apply NoDup_singleton.
      * intros t. unfold titles. rewrite map_app, elem_of_app, elem_of_union,
          elem_of_singleton. simpl. rewrite list_elem_of_singleton, Hseen.
        unfold titles. tauto.
      * intros t. unfold titles. rewrite map_app, elem_of_app. fold (titles all).
        rewrite Htitles. simpl. rewrite list_elem_of_singleton. split.
        -- intros [[Ht (oc & Hoc & Heq)]| ->].
           ++ split; [done|]. exists oc. split; [|done]. apply elem_of_app. by left.
           ++ split; [done|]. exists (fid, c). split; [|done]. apply elem_of_app.
              right. by apply list_elem_of_singleton.
        -- intros [Ht (oc & Hoc & Heq)].
           apply elem_of_app in Hoc as [Hoc|Hoc]; [left; eauto|].
           apply list_elem_of_singleton in Hoc as ->. by right.
      * intros entry He. apply elem_of_app in He as [He|He].
        -- destruct (Hids entry He) as (ids & Hu & Hi). exists ids. split; [done|].
           intros f. rewrite Hi, map_app, elem_of_app. split; [by left|].
           intros [?|Hnew]; [done|]. simpl in Hnew.
           apply list_elem_of_singleton in Hnew. injection Hnew as _ Hnew.
           exfalso. apply Hfresh. rewrite <- Hnew. apply list_elem_of_fmap. eauto.
        -- apply list_elem_of_singleton in He as ->. exists [fid].
           split; [reflexivity|]. intros f. cbn [set_used_by Citation.title].
           rewrite map_app, elem_of_app, list_elem_of_singleton. simpl.
           rewrite list_elem_of_singleton. split.
           ++ intros ->. by right.
           ++ intros [Hold|Hnew]; [|by injection Hnew].
              exfalso. apply Hfresh, Htitles. split; [done|].
              apply list_elem_of_fmap in Hold as (oc & Heq & Hoc).
              injection Heq as _ Heq. eauto.
Qed.

Lemma merged_state_fold ocs : forall st done,
  merged_state st done -> merged_state (foldl occurrence_step st ocs) (done ++ ocs).
Proof.
  induction ocs as [|oc ocs IH]; intros st done Hst.
  - by rewrite app_nil_r.
  - cbn [foldl]. replace (done ++ oc :: ocs) with ((done ++ [oc]) ++ ocs)
      by (by rewrite <- app_assoc).
    apply IH, merged_state_step, Hst.
Qed.

Lemma merged_state_final (framework_results : list Result.t) :
  merged_state (foldl result_step ([], ∅) framework_results)
               (occurrences framework_results).
Proof.
  rewrite merge_as_occurrences.
  apply (merged_state_fold (occurrences framework_results) ([], ∅) []).
  split_and!; cbn [fst snd titles map].
  - constructor.
  - intros t. set_solver.
  - intros t. split; [intros H; inversion H|]. intros [_ (oc & Hoc & _)]. inversion Hoc.
  - intros entry He. inversion He.
Qed.

Lemma contributes_occurrence framework_results fid title :
  Spec.contributes framework_results fid title
  <-> (fid, title) ∈ map (fun oc => (oc.1, Citation.title oc.2))
                         (occurrences framework_results).
Proof.
  unfold Spec.contributes. rewrite list_elem_of_fmap. split.
  - intros (r & c & Hr & Hc & <- & <-). exists (fid_of r, c). split; [done|].
    apply elem_of_occurrences. eauto.
  - intros ([f c] & Heq & Hoc). injection Heq as -> ->.
    apply elem_of_occurrences in Hoc as (r & Hr & Hc & <-). exists r, c. done.
Qed.

Lemma merged_titles framework_results t :
  t ∈ titles (_merge_citations framework_results)
  <-> t <> "" /\ exists fid, Spec.contributes framework_results fid t.
Proof.
  destruct (merged_state_final framework_results) as (_ & _ & Htitles & _).
  unfold _merge_citations. rewrite Htitles. split; intros [Ht H]; (split; [done|]).
  - destruct H as ([f c] & Hoc & <-). exists f. apply contributes_occurrence.
    apply list_elem_of_fmap. by exists (f, c).
  - destruct H as (f & H). apply contributes_occurrence, list_elem_of_fmap in H
      as (oc & Heq & Hoc). injection Heq as _ ->. eauto.
Qed.

Lemma merged_credits framework_results t fid :
  Spec.credits (_merge_citations framework_results) t fid
  <-> t <> "" /\ Spec.contributes framework_results fid t.
Proof.
  destruct (merged_state_final framework_results) as (_ & _ & Htitles & Hids).
  unfold Spec.credits, _merge_citations. split.
  - intros (entry & ids & He & <- & Hu & Hf).
    destruct (Hids entry He) as (ids' & Hu' & Hi). rewrite Hu in Hu'.
    injection Hu' as <-. split.
    + assert (Citation.title entry ∈ titles (foldl result_step ([], ∅) framework_results).1)
        as Ht by (apply list_elem_of_fmap; eauto).
      by apply Htitles in Ht as [Ht _].
    + by apply contributes_occurrence, Hi.
  - intros [Ht Hc].
    assert (t ∈ titles (_merge_citations framework_results)) as Hin
        by (apply merged_titles; eauto).
    apply list_elem_of_fmap in Hin as (entry & -> & He).
    destruct (Hids entry He) as (ids & Hu & Hi).
    exists entry, ids. split_and!; try done. by apply Hi, contributes_occurrence.
Qed.

Lemma contributes_perm rs rs' fid t :
  rs ≡ₚ rs' -> Spec.contributes rs fid t <-> Spec.contributes rs' fid t.
Proof.
  intros Hp. unfold Spec.contributes.
  split; intros (r & c & Hr & H); exists r, c; (split; [|done]).
  - by rewrite <- Hp.
  - by rewrite Hp.
Qed.

(** C5, as stated, fails: two results cite the same title with different
    excerpts, and the merged entry keeps the excerpt of whichever result
    comes first, so the merged content depends on the order of the
    results; and a citation without a title yields no entry. *)
Lemma merge_citations_counterexample :
  map Citation.text (_merge_citations [Samples.cites_a; Samples.cites_b]) = ["Ask why five times."]
  /\ map Citation.text (_merge_citations [Samples.cites_b; Samples.cites_a])
     = ["Map power against interest."]
  /\ ~ (_merge_citations [Samples.cites_a; Samples.cites_b] ≡ₚ _merge_citations [Samples.cites_b; Samples.cites_a])
  /\ _merge_citations [Samples.cites_untitled] = [].
Proof.
  split_and!; try reflexivity.
  intros Hp. apply (fmap_Permutation Citation.text) in Hp.
  vm_compute in Hp. apply Permutation_singleton_l in Hp. discriminate.
Qed.

(** C5, amended: merging produces exactly one entry per distinct
    non-empty title (a citation without a title is dropped), and the
    [used_by_frameworks] of the entry lists exactly the framework ids of
    the results that carry a citation of that title.  The set of titles
    and, for each title, the set of listed ids do not depend on the order
    of the results. *)
Theorem merge_citations_by_title (framework_results : list Result.t) :
  let merged := _merge_citations framework_results in
  NoDup (titles merged)
  /\ (forall title,
        title ∈ titles merged
        <-> title <> "" /\ exists fid, Spec.contributes framework_results fid title)
  /\ (forall entry, entry ∈ merged -> is_Some (Citation.used_by_frameworks entry))
  /\ (forall title fid,
        Spec.credits merged title fid
        <-> title <> "" /\ Spec.contributes framework_results fid title)
  /\ (forall reordered,
        framework_results ≡ₚ reordered ->
        (forall title,
            title ∈ titles merged <-> title ∈ titles (_merge_citations reordered))
        /\ (forall title fid,
              Spec.credits merged title fid
              <-> Spec.credits (_merge_citations reordered) title fid)).
Proof.
  intros merged. subst merged. split_and!.
  - by destruct (merged_state_final framework_results) as (Hnd & _).
  - apply merged_titles.
  - intros entry He.
    destruct (merged_state_final framework_results) as (_ & _ & _ & Hids).
    destruct (Hids entry He) as (ids & -> & _). eauto.
  - apply merged_credits.
  - intros reordered Hp. split.
    + intros t. rewrite !merged_titles.
      by setoid_rewrite (contributes_perm _ _ _ t Hp).
    + intros t fid. rewrite !merged_credits. by rewrite (contributes_perm _ _ fid t Hp).
Qed.

(** Both orders of the two sample results credit stakeholder_mapping for the title. *)
Lemma merge_citations_by_title_witness :
  Spec.credits (_merge_citations [Samples.cites_a; Samples.cites_b])
    "PWS Handbook" "stakeholder_mapping"
  <-> Spec.credits (_merge_citations [Samples.cites_b; Samples.cites_a])
        "PWS Handbook" "stakeholder_mapping".
Proof.
  apply (merge_citations_by_title [Samples.cites_a; Samples.cites_b]).
  apply perm_swap.
Defined.
End ConsolidatorProperties.

(** * Further properties *)

(** ** Prompts of the classifiers *)

Section PromptProperties.
Import Diagnosis Text ClassifierPrompt.

Lemma take_str_length (n : nat) (s : string) :
  (String.length (take_str n s) <= n)%nat.
Proof.
  revert s. induction n as [|n IH]; intros [|c s]; simpl; try lia.
  specialize (IH s). lia.
Qed.

Lemma append_length (s t : string) :
  String.length (s +:+ t) = (String.length s + String.length t)%nat.
Proof. induction s as [|c s IH]; simpl; [reflexivity|]. by rewrite IH. Qed.

Lemma concat_length_bound (sep : string) (bound : nat) (l : list string) :
  Forall (fun s => String.length s <= bound)%nat l ->
  (String.length (String.concat sep l)
   <= length l * (bound + String.length sep))%nat.
Proof.
  induction 1 as [|s l Hs Hl IH]; [simpl; lia|].
  destruct l as [|t l]; [simpl in *; lia|].
  change (String.concat sep (s :: t :: l))
    with (s +:+ sep +:+ String.concat sep (t :: l)).
  rewrite !append_length.
  change (length (s :: t :: l)) with (S (length (t :: l))). lia.
Qed.

Lemma last_n_length {A : Type} (n : nat) (l : list A) :
  (length (last_n n l) <= n)%nat.
Proof. unfold last_n. rewrite length_drop. lia. Qed.

Lemma last_n_app {A : Type} (n : nat) (older recent : list A) :
  (n <= length recent)%nat -> last_n n (older ++ recent) = last_n n recent.
Proof.
  intros H. unfold last_n. rewrite length_app.
  rewrite drop_app_ge by lia. f_equal. lia.
Qed.

(** X1: The prompt of a classifier shows the last ten messages only: what
    precedes them does not change the formatted conversation. *)
Theorem format_conversation_window (older recent : list Message) :
  (10 <= length recent)%nat ->
  _format_conversation (older ++ recent) = _format_conversation recent.
Proof. intros H. unfold _format_conversation. by rewrite last_n_app. Qed.

(** An eleventh, older message is not shown. *)
Lemma format_conversation_window_witness :
  _format_conversation ([Examples.old_message] ++ Examples.ten_messages)
  = _format_conversation Examples.ten_messages.
Proof.
  apply (format_conversation_window [Examples.old_message] Examples.ten_messages).
  vm_compute. lia.
Defined.

(** X2: The formatted conversation of a classifier prompt is bounded
    whatever the conversation: at most ten lines of at most 507
    characters (the role, a colon and 500 characters of content), joined
    by two newlines. *)
Theorem format_conversation_bounded (conversation : list Message) :
  (String.length (_format_conversation conversation) <= 10 * 509)%nat.
Proof.
  unfold _format_conversation.
  etransitivity.
  - apply (concat_length_bound _ 507). apply List.Forall_forall. intros s Hs.
    apply in_map_iff in Hs as (msg & <- & _).
    unfold format_message. rewrite !append_length.
    pose proof (take_str_length 500 (content msg)) as Hlen.
    remember (take_str 500 (content msg)) as excerpt.
    destruct (String.eqb (role msg) "user"); simpl; lia.
  - rewrite length_map. pose proof (last_n_length 10 conversation) as H.
    change (String.length (nl +:+ nl)) with 2%nat. nia.
Qed.
End PromptProperties.

(** ** Context of the diagnosis prompt *)

Section ContextProperties.
Import Diagnosis Text DiagnosisContext.

Lemma latest_loop_spec (reversed : list Message) : forall lu la,
  latest_loop reversed lu la
  = (if nonempty lu then lu
     else match List.filter nonempty
                  (map (fun m => take_str 200 (content m))
                       (List.filter (fun m => String.eqb (role m) "user") reversed)) with
          | excerpt :: _ => excerpt
          | [] => ""
          end,
     if nonempty la then la
     else match List.filter nonempty
                  (map (fun m => take_str 200 (content m))
                       (List.filter (fun m => String.eqb (role m) "assistant") reversed)) with
          | excerpt :: _ => excerpt
          | [] => ""
          end).
Proof.
  induction reversed as [|m rest IH]; intros lu la.
  - simpl. unfold nonempty.
    destruct (String.eqb_spec lu ""), (String.eqb_spec la ""); subst; reflexivity.
  - cbn [latest_loop List.filter map].
    destruct (String.eqb (role m) "user") eqn:Hu,
             (String.eqb (role m) "assistant") eqn:Ha,
             (nonempty lu) eqn:Hlu, (nonempty la) eqn:Hla,
             (nonempty (take_str 200 (content m))) eqn:Hex;
      try (apply String.eqb_eq in Hu; rewrite Hu in Ha; discriminate);
      cbn -[take_str nonempty]; rewrite ?Hlu, ?Hla, ?Hex;
      cbn -[take_str nonempty]; rewrite ?IH, ?Hlu, ?Hla, ?Hex; reflexivity.
Qed.

(** X3: The summary of a conversation of fewer than two messages is the
    fixed sentence; otherwise it quotes the first user message and, for
    the user and for the assistant, the latest message of that role whose
    first 200 characters are not empty, which is what the backwards loop
    with its [break] computes. *)
Theorem summarize_conversation_latest (conversation : list Message) :
  (length conversation < 2 ->
   _summarize_conversation conversation = "Conversation just started.")%nat
  /\ (2 <= length conversation ->
      _summarize_conversation conversation
      = "Initial: " +:+ first_user conversation +:+ nl
        +:+ "Latest exchange - User: " +:+ latest_excerpt "user" conversation +:+ nl
        +:+ "Assistant: " +:+ latest_excerpt "assistant" conversation)%nat.
Proof.
  unfold _summarize_conversation. split; intros H.
  - destruct (Nat.ltb_spec (length conversation) 2); [reflexivity|lia].
  - destruct (Nat.ltb_spec (length conversation) 2); [lia|].
    rewrite latest_loop_spec. reflexivity.
Qed.

(** X4: The context that [_build_context] hands to the consolidation prompt
    is bounded whatever the conversation: it counts all the messages but
    keeps at most three user statements, the latest ones, at most two
    assistant responses and at most five citations, each with at most
    200 characters of text. *)
Theorem build_context_bounded (conversation : list Entry.t)
  (citations : option (list Cite.t)) :
  let context := (_build_context conversation citations).1 in
  Context.message_count context = length conversation
  /\ (length (Context.user_statements context) <= 3)%nat
  /\ (length (Context.assistant_responses context) <= 2)%nat
  /\ (length (Context.citations context) <= 5)%nat
  /\ Forall (fun c => String.length c.2 <= 200)%nat (Context.citations context)
  /\ (forall older recent,
        contents_of "user" conversation = older ++ recent ->
        length recent = 3%nat ->
        Context.user_statements context = recent).
Proof.
  intros context. subst context. unfold _build_context.
  cbn [fst Context.message_count Context.user_statements
       Context.assistant_responses Context.citations].
  split_and!.
  - reflexivity.
  - apply last_n_length.
  - apply last_n_length.
  - rewrite length_map, length_take. lia.
  - apply List.Forall_forall. intros c Hc. apply in_map_iff in Hc as (c0 & <- & _).
    apply take_str_length.
  - intros older recent -> Hlen. rewrite last_n_app by lia.
    unfold last_n. rewrite Hlen. reflexivity.
Qed.
End ContextProperties.

(** ** Session state *)

Section SessionProperties.
Import Classifiers Diagnosis DiagnosisContext Session.

Lemma update_diagnosis_ret (diagnosis : json) (s s' : State.t) :
  update_diagnosis diagnosis s = Ret s' ->
  readable diagnosis = true
  /\ State.full_diagnosis s' = Some diagnosis
  /\ State.messages s' = State.messages s
  /\ State.message_count s' = State.message_count s.
Proof.
  unfold update_diagnosis, readable. intros Hu.
  destruct diagnosis as [| | | | |fields]; try discriminate.
  rewrite !get_obj in Hu. cbn [mbind py_bind bind] in Hu.
  destruct (Spec.field_or (JObj fields) "ui_updates" (JObj [])) as [| | | | |ui];
    try discriminate.
  rewrite !get_obj in Hu. cbn [mbind py_bind bind] in Hu.
  injection Hu as <-. split_and!; reflexivity.
Qed.

(** X5: Two invariants of the session: every sequence of [add_message],
    [update_diagnosis] and [clear_session] calls from the initial state
    ends in a state whose [message_count] is the length of the message
    list, and whose stored diagnosis, if any, is a dict with a dict under
    [ui_updates], so that the next [diagnose] can quote it in its prompt
    without an exception. *)
Theorem session_invariants (actions : list action) :
  let s := foldl step State.initial actions in
  State.message_count s = length (State.messages s)
  /\ forall previous, State.full_diagnosis s = Some previous -> readable previous = true.
Proof.
  cbn zeta.
  assert (Hgen : forall s,
             (State.message_count s = length (State.messages s)
              /\ forall previous,
                  State.full_diagnosis s = Some previous -> readable previous = true) ->
             State.message_count (foldl step s actions)
             = length (State.messages (foldl step s actions))
             /\ forall previous,
                 State.full_diagnosis (foldl step s actions) = Some previous ->
                 readable previous = true).
  { induction actions as [|a actions IH]; intros s Hs; [exact Hs|].
    cbn [foldl]. apply IH. destruct Hs as [Hcount Hprev].
    destruct a as [r c cs|d|]; cbn [step].
    - unfold add_message. cbn [State.message_count State.messages State.full_diagnosis].
      rewrite length_app. cbn [length]. split; [lia|exact Hprev].
    - destruct (update_diagnosis d s) as [s'|msg] eqn:Hu; [|by split].
      apply update_diagnosis_ret in Hu as (Hread & Hfull & Hm & Hc).
      rewrite Hc, Hm. split; [exact Hcount|].
      intros previous. rewrite Hfull. by intros [= <-].
    - split; [reflexivity|]. intros previous [=]. }
  apply Hgen. split; [reflexivity|]. intros previous [=].
Qed.

Lemma update_diagnosis_obj (fields ui : list (string * json)) (s : State.t) :
  Spec.field_or (JObj fields) "ui_updates" (JObj []) = JObj ui ->
  exists s',
    update_diagnosis (JObj fields) s = Ret s'
    /\ get_diagnosis_dict s'
       = JObj [("definition", Spec.field_or (JObj ui) "definition" (JStr "undefined"));
               ("complexity", Spec.field_or (JObj ui) "complexity" (JStr "complex"));
               ("risk_uncertainty",
                Spec.field_or (JObj ui) "risk_uncertainty" (JNum 0.5));
               ("wickedness", Spec.field_or (JObj ui) "wickedness" (JStr "messy"))]
    /\ ResearchState.show_research_prompt (State.research s')
       = Spec.field_or (JObj ui) "show_research_prompt" (JBool false)
    /\ State.full_diagnosis s' = Some (JObj fields)
    /\ State.messages s' = State.messages s
    /\ State.message_count s' = State.message_count s.
Proof.
  intros Hui. unfold update_diagnosis.
  rewrite !get_obj. cbn [mbind py_bind bind]. rewrite Hui.
  rewrite !get_obj. cbn [mbind py_bind bind].
  eexists. split; [reflexivity|]. split_and!; reflexivity.
Qed.

(** X6: [update_diagnosis] returns exactly when the diagnosis is a dict whose
    [ui_updates], if present, is a dict; when it raises, at its first or
    fourth read, nothing has been assigned. *)
Theorem update_diagnosis_returns_iff (diagnosis : json) (s : State.t) :
  returns (update_diagnosis diagnosis s) = readable diagnosis.
Proof.
  unfold readable. destruct diagnosis as [| | | | |fields]; try reflexivity.
  cbn [is_obj andb].
  destruct (Spec.field_or (JObj fields) "ui_updates" (JObj [])) as [| | | | |ui] eqn:Hui.
  6: { destruct (update_diagnosis_obj fields ui s Hui) as (s' & -> & _). reflexivity. }
  all: unfold update_diagnosis; rewrite !get_obj; cbn [mbind py_bind bind];
    rewrite Hui; reflexivity.
Qed.



End SessionProperties.

(** ** Pyramid analyzer *)

Section MintoProperties.
Import Diagnosis Text Minto.

Lemma filter_last_user (conversation : list Message) (m : Message) :
  String.eqb (role m) "user" = true ->
  latest_user (conversation ++ [m]) = content m.
Proof.
  intros Hm. unfold latest_user, user_messages.
  rewrite List.filter_app. cbn [List.filter]. rewrite Hm.
  rewrite map_app. cbn [map]. by rewrite last_snoc.
Qed.

Lemma filter_last_other (conversation : list Message) (m : Message) :
  String.eqb (role m) "user" = false ->
  latest_user (conversation ++ [m]) = latest_user conversation.
Proof.
  intros Hm. unfold latest_user, user_messages.
  rewrite List.filter_app. cbn [List.filter]. rewrite Hm. by rewrite app_nil_r.
Qed.

(** X8: When the analysis call fails on a non-empty conversation, [analyze]
    returns the fallback pyramid: it records the error, asks as its
    question the first 200 characters of the latest user message, or
    "What's the problem?" when there is no user message or the latest one
    is empty, and it has no [detected_signals] key.  The question is never
    empty and never longer than 200 characters. *)
Theorem analyze_failure_question (conversation : list Message) (e : string) :
  conversation <> [] ->
  let result := analyze conversation (Raised e) in
  let question := fallback_question conversation in
  at_path ["_error"] result = Some (JStr e)
  /\ at_path ["scqa"; "question"] result = Some (JStr question)
  /\ at_path ["detected_signals"] result = None
  /\ question <> ""
  /\ (String.length question <= 200)%nat
  /\ (forall older m,
        conversation = older ++ [m] ->
        role m = "user" -> content m <> "" ->
        question = take_str 200 (content m)).
Proof.
  intros Hne. cbn zeta. unfold analyze.
  destruct conversation as [|m0 rest]; [done|]. cbn [length Nat.ltb Nat.leb].
  split_and!; try reflexivity.
  - unfold fallback_question, nonempty.
    destruct (String.eqb_spec (latest_user (m0 :: rest)) "") as [Heq|Hneq]; cbn [negb].
    + discriminate.
    + destruct (latest_user (m0 :: rest)) as [|c s]; [done|]. discriminate.
  - unfold fallback_question. destruct (nonempty _).
    + apply take_str_length.
    + cbn. lia.
  - intros older m Heq Hrole Hcontent. rewrite Heq.
    unfold fallback_question. rewrite filter_last_user
      by (rewrite Hrole; reflexivity).
    unfold nonempty. destruct (String.eqb_spec (content m) ""); [done|reflexivity].
Qed.

(** A first user message becomes the question of the fallback pyramid. *)
Lemma analyze_failure_question_witness :
  at_path ["scqa"; "question"] (analyze [Examples.question] (Raised "deadline exceeded"))
  = Some (JStr "Why do enterprise customers churn after onboarding?").
Proof.
  destruct (analyze_failure_question [Examples.question] "deadline exceeded")
    as (_ & Hq & _); [discriminate|].
  rewrite Hq. vm_compute. reflexivity.
Defined.
End MintoProperties.

(** ** Pyramid analyzer and recommender *)

Section MintoRecommenderProperties.
Import Diagnosis Minto PromptReads.

(** X9: When the pyramid analysis fails, the later steps are not hindered by
    what [analyze] returns: the reads that the prompt builders of the
    recommender, the executor and the consolidator perform before their
    [try] blocks succeed on it.  The pyramid names no signal, so when the
    recommendation call fails too, [recommend] returns the three defaults
    with root_cause_analysis first, whatever the conversation. *)
Theorem analysis_failure_recommends_defaults
  (conversation : list Message) (e e' : string) :
  let pyramid_analysis := analyze conversation (Raised e) in
  recommender_reads pyramid_analysis = Ret tt
  /\ read_scqa pyramid_analysis = Ret tt
  /\ exists pyramid,
      pyramid_of pyramid_analysis = Some pyramid
      /\ Recommender.framework_ids
           (Recommender.recommend pyramid (Recommender.Raised e'))
         = ["root_cause_analysis"; "scenario_planning"; "stakeholder_mapping"]
      /\ Recommender.Selection.primary_recommendation
           (Recommender.recommend pyramid (Recommender.Raised e'))
         = "root_cause_analysis".
Proof.
  cbn zeta. unfold analyze. destruct (length conversation <? 1)%nat.
  - split; [reflexivity|]. split; [reflexivity|].
    eexists. split; [reflexivity|]. split; reflexivity.
  - split; [reflexivity|]. split; [reflexivity|].
    eexists. split; [reflexivity|]. split; reflexivity.
Qed.
End MintoRecommenderProperties.

(** ** Recommender: fallback and enrichment *)

Section RecommenderFallbackProperties.
Import Recommender RecommenderFacts.

Lemma signal_step_keeps_head (signals : list string) :
  forall rec recs used,
    exists recs' used',
      foldl signal_step (rec :: recs, used) signals = (rec :: recs', used').
Proof.
  induction signals as [|s signals IH]; intros rec recs used; [by eexists _, _|].
  cbn [foldl]. unfold signal_step at 2.
  destruct (signal_frameworks !! s) as [[[fid title] rationale]|]; [|apply IH].
  case_bool_decide; [apply IH|]. rewrite <- app_comm_cons. apply IH.
Qed.

Lemma signal_fold_head (signals : list string) :
  head (ids_of (foldl signal_step ([], ∅) signals).1) = head (omap table_id signals).
Proof.
  induction signals as [|s signals IH]; [reflexivity|].
  cbn [foldl]. unfold signal_step at 2. cbn [omap list_omap]. unfold table_id at 1.
  destruct (signal_frameworks !! s) as [[[fid title] rationale]|]; [|exact IH].
  rewrite bool_decide_eq_false_2 by set_solver. cbn [app fmap option_fmap option_map].
  match goal with |- context [foldl _ (?r :: ?rs, ?u) _] =>
    destruct (signal_step_keeps_head signals r rs u) as (recs' & used' & ->) end.
  reflexivity.
Qed.



Lemma fallback_recommended (pyramid : Pyramid.t) (e : string) :
  Selection.recommended_frameworks (recommend pyramid (Raised e))
  = map enrich_fallback
      match (foldl signal_step ([], ∅)
               (take 4 (default [] (Pyramid.detected_signals pyramid)))).1 with
      | [] => map default_recommendation (take 3 diverse_defaults)
      | recs => recs
      end.
Proof.
  unfold recommend, _fallback_recommendations. cbn [Selection.recommended_frameworks].
  destruct (foldl signal_step _ _).1; reflexivity.
Qed.

Lemma fallback_ids (pyramid : Pyramid.t) (e : string) :
  framework_ids (recommend pyramid (Raised e))
  = match (foldl signal_step ([], ∅)
             (take 4 (default [] (Pyramid.detected_signals pyramid)))).1 with
    | [] => ["root_cause_analysis"; "scenario_planning"; "stakeholder_mapping"]
    | recs => ids_of recs
    end.
Proof.
  unfold framework_ids. rewrite fallback_recommended, ids_enrich.
  destruct (foldl signal_step _ _).1; reflexivity.
Qed.

Lemma fallback_primary_is_head (pyramid : Pyramid.t) (e : string) :
  head (framework_ids (recommend pyramid (Raised e)))
  = Some (Selection.primary_recommendation (recommend pyramid (Raised e))).
Proof.
  unfold framework_ids. rewrite fallback_recommended.
  unfold recommend, _fallback_recommendations. cbn [Selection.primary_recommendation].
  destruct (foldl signal_step _ _).1; reflexivity.
Qed.

Lemma fallback_primary_eq (pyramid : Pyramid.t) (e : string) :
  Selection.primary_recommendation (recommend pyramid (Raised e))
  = default "root_cause_analysis"
      (head (omap table_id (take 4 (default [] (Pyramid.detected_signals pyramid))))).
Proof.
  pose proof (fallback_primary_is_head pyramid e) as Hhead.
  rewrite fallback_ids in Hhead. rewrite <- signal_fold_head.
  destruct (foldl signal_step _ _).1 as [|rec recs];
    simpl in *; injection Hhead as <-; reflexivity.
Qed.



Lemma set_full_data_id rec d :
  Recommendation.framework_id (set_full_data rec d) = Recommendation.framework_id rec.
Proof. reflexivity. Qed.

(** X12: On the success path [recommend] keeps the recommendations of the
    decoded answer, their order and their ids, attaches the catalog entry
    as [full_data] to every recommendation whose id the catalog has and
    leaves the others as they came; enriching twice changes nothing. *)
Theorem recommend_parsed_enriches (pyramid : Pyramid.t) (result : Selection.t) :
  let selection := recommend pyramid (Parsed result) in
  framework_ids selection = framework_ids result
  /\ Forall2 (fun rec rec' =>
                match Frameworks.ALL_FRAMEWORKS !! Recommendation.framework_id rec with
                | Some framework =>
                    rec' = set_full_data rec (catalog_data true framework)
                | None => rec' = rec
                end)
             (Selection.recommended_frameworks result)
             (Selection.recommended_frameworks selection)
  /\ recommend pyramid (Parsed selection) = selection.
Proof.
  cbn zeta. unfold recommend, framework_ids, _enrich_recommendations.
  cbn [Selection.recommended_frameworks Selection.selection_reasoning
       Selection.primary_recommendation Selection.complementary_pairs Selection._error].
  split_and!.
  - unfold ids_of. rewrite map_map. apply map_ext. intros rec.
    destruct (Frameworks.ALL_FRAMEWORKS !! _); reflexivity.
  - apply Forall2_fmap_r. apply Forall_Forall2_diag. apply Forall_forall. intros rec _. unfold compose. cbn beta.
    destruct (Frameworks.ALL_FRAMEWORKS !! Recommendation.framework_id rec) eqn:Hfw;
      rewrite ?Hfw; reflexivity.
  - f_equal. rewrite map_map. apply map_ext. intros rec.
    destruct (Frameworks.ALL_FRAMEWORKS !! Recommendation.framework_id rec) eqn:Hfw.
    + rewrite set_full_data_id, Hfw. reflexivity.
    + rewrite Hfw. reflexivity.
Qed.
End RecommenderFallbackProperties.

(** ** Executor: fallback and catalog *)

Section ExecutorFallbackProperties.
Import Executor ExecutorFacts.

Lemma map_string_chars (f : ascii -> ascii) (s : string) :
  list_ascii_of_string (map_string f s) = map f (list_ascii_of_string s).
Proof. induction s as [|c s IH]; simpl; [reflexivity|]. by rewrite IH. Qed.

Lemma map_string_length (f : ascii -> ascii) (s : string) :
  String.length (map_string f s) = String.length s.
Proof. induction s as [|c s IH]; simpl; [reflexivity|]. by rewrite IH. Qed.

Lemma slug_char_of (c : ascii) :
  let l := let n := nat_of_ascii c in
           if (65 <=? n)%nat && (n <=? 90)%nat then ascii_of_nat (n + 32) else c in
  let u := if Ascii.eqb l " " then "_"%char else l in
  slug_char (if Ascii.eqb u "-" then "_"%char else u).
Proof.
  cbv zeta. unfold slug_char.
  destruct ((65 <=? nat_of_ascii c)%nat && (nat_of_ascii c <=? 90)%nat) eqn:Hup.
  - apply andb_prop in Hup as [H1 H2].
    apply Nat.leb_le in H1, H2.
    assert (Hn : nat_of_ascii (ascii_of_nat (nat_of_ascii c + 32))
                 = (nat_of_ascii c + 32)%nat) by (apply nat_ascii_embedding; lia).
    remember (ascii_of_nat (nat_of_ascii c + 32)) as l eqn:Hl. clear Hl.
    assert (l <> " "%char) as Hs by (intros E; rewrite E in Hn; change (nat_of_ascii " ") with 32%nat in Hn; lia).
    assert (l <> "-"%char) as Hh by (intros E; rewrite E in Hn; change (nat_of_ascii "-") with 45%nat in Hn; lia).
    apply Ascii.eqb_neq in Hs, Hh. rewrite Hs, Hh.
    apply Ascii.eqb_neq in Hs, Hh. split_and!; try done. intros [? ?]. lia.
  - assert (Hc : ~ (65 <= nat_of_ascii c <= 90)%nat).
    { intros [H1 H2]. apply andb_false_iff in Hup as [H|H];
        apply Nat.leb_gt in H; lia. }
    destruct (Ascii.eqb_spec c " ") as [->|Hs].
    + cbn. split_and!; try done. change (nat_of_ascii "_") with 95%nat. lia.
    + destruct (Ascii.eqb_spec c "-") as [->|Hh].
      * split_and!; try done. change (nat_of_ascii "_") with 95%nat. lia.
      * split_and!; done.
Qed.

Lemma slug_of_title (title : string) :
  let id := replace "-" "_" (replace " " "_" (lower title)) in
  String.length id = String.length title
  /\ Forall slug_char (list_ascii_of_string id).
Proof.
  cbn zeta. split.
  - unfold replace, lower. by rewrite !map_string_length.
  - unfold replace, lower. rewrite !map_string_chars, !map_map.
    apply List.Forall_forall. intros c Hc. apply in_map_iff in Hc as (c0 & <- & _).
    apply slug_char_of.
Qed.

(** X13: A failing execution of a catalog framework reports a [framework_id]
    that is derived from the title of the framework, not from the
    requested id: it has the length of the title and holds no space, no
    hyphen and no upper-case letter. *)
Theorem fallback_id_is_slug
  (framework_id : string) (framework : Frameworks.FrameworkTemplate) (e : string) :
  Frameworks.ALL_FRAMEWORKS !! framework_id = Some framework ->
  exists id,
    Result.framework_id (execute framework_id (Raised e)) = Some id
    /\ String.length id = String.length (Frameworks.title framework)
    /\ Forall slug_char (list_ascii_of_string id).
Proof.
  intros Hfw. unfold execute. rewrite Hfw. eexists. split; [reflexivity|].
  apply slug_of_title.
Qed.

(** The fallback id of heart_framework has the 26 characters of its
    title. *)
Lemma fallback_id_is_slug_witness :
  exists id,
    Result.framework_id (execute "heart_framework" (Raised "deadline exceeded")) = Some id
    /\ String.length id = 26%nat.
Proof.
  destruct (Frameworks.ALL_FRAMEWORKS !! "heart_framework") as [framework|] eqn:Hfw;
    [|vm_compute in Hfw; discriminate].
  destruct (fallback_id_is_slug "heart_framework" framework "deadline exceeded" Hfw)
    as (id & Hid & Hlen & _).
  exists id. split; [exact Hid|]. rewrite Hlen.
  vm_compute in Hfw. injection Hfw as <-. reflexivity.
Defined.

Ltac catalog_cases H :=
  repeat (apply elem_of_cons in H as [H|H];
          [injection H as -> ->; vm_compute; repeat split; try lia;
           refine (bool_decide_unpack _ _); vm_compute; exact I|]);
  inversion H.

Lemma catalog_shape (framework_id : string) (framework : Frameworks.FrameworkTemplate) :
  Frameworks.ALL_FRAMEWORKS !! framework_id = Some framework ->
  (5 <= length (Frameworks.key_questions framework))%nat
  /\ (3 <= length (Frameworks.required_concepts framework))%nat
  /\ (4 <= length (Frameworks.output_structure framework))%nat
  /\ NoDup (map fst (Frameworks.output_structure framework)).
Proof.
  unfold Frameworks.ALL_FRAMEWORKS. intros H.
  apply lookup_union_Some_raw in H as [H|[_ H]].
  - unfold Frameworks.PHASE_2_FRAMEWORKS in H.
    apply elem_of_list_to_map_2 in H. catalog_cases H.
  - unfold Frameworks.PHASE_1_FRAMEWORKS in H.
    apply elem_of_list_to_map_2 in H. catalog_cases H.
Qed.

(** X14: The three slices of [_fallback_execution] are never short on a
    catalog framework: a failing execution answers exactly three key
    questions, proposes exactly the first two key questions as next
    steps, asks for exactly three concepts, and fills four or more
    distinct output keys. *)
Theorem execute_failure_sizes
  (framework_id : string) (framework : Frameworks.FrameworkTemplate) (e : string) :
  Frameworks.ALL_FRAMEWORKS !! framework_id = Some framework ->
  exists analysis next_steps needs,
    Result.framework_analysis (execute framework_id (Raised e)) = Dict analysis
    /\ length (Analysis.key_questions_answered analysis) = 3%nat
    /\ Analysis.recommended_next_steps analysis = Some next_steps
    /\ length next_steps = 2%nat
    /\ next_steps `prefix_of` Frameworks.key_questions framework
    /\ Result.needs_more_info (execute framework_id (Raised e)) = Some needs
    /\ length needs = 3%nat
    /\ (4 <= length (Analysis.framework_output analysis))%nat
    /\ NoDup (map fst (Analysis.framework_output analysis)).
Proof.
  intros Hfw. destruct (catalog_shape _ _ Hfw) as (Hq & Hc & Ho & Hnd).
  unfold execute. rewrite Hfw. unfold _fallback_execution.
  cbn [Result.framework_analysis Result.needs_more_info].
  eexists _, _, _. split; [reflexivity|].
  cbn [Analysis.key_questions_answered Analysis.recommended_next_steps
       Analysis.framework_output].
  split_and!; try reflexivity.
  - rewrite length_map, length_take. lia.
  - rewrite length_take. lia.
  - apply prefix_take.
  - rewrite length_take. lia.
  - rewrite length_map. lia.
  - rewrite map_map. exact Hnd.
Qed.

(** A catalog framework of each table, with its size facts. *)
Lemma execute_failure_sizes_witness :
  exists analysis,
    Result.framework_analysis (execute "heart_framework" (Raised "deadline exceeded"))
    = Dict analysis
    /\ length (Analysis.key_questions_answered analysis) = 3%nat.
Proof.
  destruct (Frameworks.ALL_FRAMEWORKS !! "heart_framework") as [framework|] eqn:Hfw;
    [|vm_compute in Hfw; discriminate].
  destruct (execute_failure_sizes "heart_framework" framework "deadline exceeded" Hfw)
    as (analysis & _ & _ & Ha & Hl & _).
  exists analysis. split; assumption.
Defined.

Ltac table_cases H tac :=
  repeat (apply elem_of_cons in H as [H|H]; [injection H as -> ->; tac|]);
  inversion H.

(** X15: The failing execution of a catalog framework reports the requested
    id for eight of the sixteen frameworks only: for the others the id
    derived from the title is another one, and no catalog entry has it. *)
Theorem execute_failure_id_agreement
  (framework_id : string) (framework : Frameworks.FrameworkTemplate) (e : string) :
  Frameworks.ALL_FRAMEWORKS !! framework_id = Some framework ->
  let reported := default "" (Result.framework_id (execute framework_id (Raised e))) in
  (reported = framework_id <->
   framework_id ∈ ["scenario_planning"; "systems_thinking"; "six_thinking_hats";
                   "stakeholder_mapping"; "value_migration"; "reverse_salience";
                   "business_model_canvas"; "process_mapping"])
  /\ (reported <> framework_id -> Frameworks.ALL_FRAMEWORKS !! reported = None).
Proof.
  intros Hfw. unfold execute. rewrite Hfw. unfold _fallback_execution.
  cbn [Result.framework_id default]. clear e.
  unfold Frameworks.ALL_FRAMEWORKS in Hfw.
  apply lookup_union_Some_raw in Hfw as [H|[_ H]].
  - unfold Frameworks.PHASE_2_FRAMEWORKS in H. apply elem_of_list_to_map_2 in H.
    table_cases H ltac:(split;
      [split; [intros E; first [refine (bool_decide_unpack _ _); vm_compute; exact I
                               | vm_compute in E; discriminate E]
              | intros E; first [reflexivity
                                | exfalso; revert E;
                                  refine (bool_decide_unpack _ _); vm_compute; exact I]]
      | intros E; first [vm_compute; reflexivity | exfalso; apply E; reflexivity]]).
  - unfold Frameworks.PHASE_1_FRAMEWORKS in H. apply elem_of_list_to_map_2 in H.
    table_cases H ltac:(split;
      [split; [intros E; first [refine (bool_decide_unpack _ _); vm_compute; exact I
                               | vm_compute in E; discriminate E]
              | intros E; first [reflexivity
                                | exfalso; revert E;
                                  refine (bool_decide_unpack _ _); vm_compute; exact I]]
      | intros E; first [vm_compute; reflexivity | exfalso; apply E; reflexivity]]).
Qed.

(** The fallback of mullins_model reports an id that the catalog does
    not have. *)
Lemma execute_failure_id_agreement_witness :
  Frameworks.ALL_FRAMEWORKS
    !! default "" (Result.framework_id
                     (execute "mullins_model" (Raised "deadline exceeded")))
  = None.
Proof.
  destruct (Frameworks.ALL_FRAMEWORKS !! "mullins_model") as [framework|] eqn:Hfw;
    [|vm_compute in Hfw; discriminate].
  destruct (execute_failure_id_agreement "mullins_model" framework
              "deadline exceeded" Hfw) as [_ Hother].
  apply Hother. vm_compute. discriminate.
Defined.

(** X16: The merged catalog is the disjoint union of the two tables, and the
    [phase] field of an entry tells its table: discovery for Phase 1,
    solution for Phase 2. *)
Theorem catalog_phase_split
  (framework_id : string) (framework : Frameworks.FrameworkTemplate) :
  Frameworks.get_framework framework_id = Some framework <->
  (Frameworks.PHASE_1_FRAMEWORKS !! framework_id = Some framework
   /\ Frameworks.PHASE_2_FRAMEWORKS !! framework_id = None
   /\ Frameworks.phase framework = "discovery")
  \/ (Frameworks.PHASE_2_FRAMEWORKS !! framework_id = Some framework
      /\ Frameworks.PHASE_1_FRAMEWORKS !! framework_id = None
      /\ Frameworks.phase framework = "solution").
Proof.
  unfold Frameworks.get_framework, Frameworks.ALL_FRAMEWORKS.
  rewrite lookup_union_Some_raw. split.
  - intros [H|[Hn H]].
    + right. split; [exact H|].
      unfold Frameworks.PHASE_2_FRAMEWORKS in H. apply elem_of_list_to_map_2 in H.
      table_cases H ltac:(split; vm_compute; reflexivity).
    + left. split; [exact H|]. split; [exact Hn|]. clear Hn.
      unfold Frameworks.PHASE_1_FRAMEWORKS in H. apply elem_of_list_to_map_2 in H.
      table_cases H ltac:(vm_compute; reflexivity).
  - intros [(H & Hn & _)|(H & _ & _)]; [right; by split|by left].
Qed.
End ExecutorFallbackProperties.

(** ** Executor: extracted citations *)

Section GroundingProperties.
Import Text Grounding.

Lemma excerpt_length (ctx : Retrieved.t) (text : string) :
  excerpt ctx = Some text -> (String.length text <= 303)%nat.
Proof.
  unfold excerpt. destruct (Retrieved.text ctx) as [| |t]; [|discriminate|].
  - intros H. apply (inj Some) in H as <-. change (String.length "") with 0%nat. lia.
  - destruct (nonempty t && (300 <? String.length t)%nat) eqn:E;
      intros H; apply (inj Some) in H as <-.
    + rewrite append_length. pose proof (take_str_length 300 t).
      change (String.length "...") with 3%nat. lia.
    + apply andb_false_iff in E as [E|E].
      * unfold nonempty in E. apply negb_false_iff, String.eqb_eq in E. subst. simpl. lia.
      * apply Nat.ltb_ge in E. lia.
Qed.

(** The state of the loop of [_extract_citations] after the chunks
    [done]. *)
Lemma extract_fold (chunks : list Chunk.t) :
  forall (citations : list Cited.t) (seen : gset (option string)),
    NoDup (cited_titles citations) ->
    (forall t, t ∈ seen <-> t ∈ cited_titles citations) ->
    let citations' := (foldl chunk_step (citations, seen) chunks).1 in
    NoDup (cited_titles citations')
    /\ (forall t, t ∈ cited_titles citations' <->
                  t ∈ cited_titles citations
                  \/ t ∈ chunk_titles {| Response.grounding_chunks := Some chunks |})
    /\ (length citations' <= length citations + length chunks)%nat
    /\ (Forall well_formed citations -> Forall well_formed citations').
Proof.
  unfold chunk_titles. cbn [Response.grounding_chunks default from_option id].
  induction chunks as [|chunk chunks IH]; intros citations seen Hnd Hseen.
  - cbn. refine (conj Hnd (conj _ (conj _ (fun H => H)))); [|lia].
    intros t. split; [by left|]. intros [?|H]; [done|inversion H].
  - cbn [foldl].
    destruct (chunk_step (citations, seen) chunk) as [citations1 seen1] eqn:Hstep.
    unfold chunk_step in Hstep.
    destruct (Chunk.retrieved_context chunk) as [ctx|] eqn:Hctx.
    + set (title := title_of ctx) in *.
      case_bool_decide as Hin; injection Hstep as <- <-.
      * destruct (IH citations seen Hnd Hseen) as (Hnd' & Hmem & Hlen & Hall).
        refine (conj Hnd' (conj _ (conj _ Hall))); [|cbn [length]; lia].
        intros t. rewrite Hmem. cbn [omap list_omap]. rewrite Hctx.
        cbn [fmap option_fmap option_map]. fold title. rewrite elem_of_cons.
        split; [tauto|].
        intros [?|[->|?]]; [tauto| |tauto]. left. by apply Hseen.
      * match goal with |- context [foldl _ (?a, ?b) _] =>
          destruct (IH a b) as (Hnd' & Hmem & Hlen & Hall) end.
        { unfold cited_titles. rewrite map_app. apply NoDup_app.
          refine (conj Hnd (conj _ _)).
          - intros t Ht Ht'. simpl in Ht'. apply list_elem_of_singleton in Ht' as ->.
            by apply Hin, Hseen.
          - simpl. apply NoDup_singleton. }
        { intros t. unfold cited_titles. rewrite map_app, elem_of_app, elem_of_union,
            elem_of_singleton. simpl. rewrite list_elem_of_singleton, Hseen.
          unfold cited_titles. tauto. }
        rewrite length_app in Hlen. cbn [length] in *.
        refine (conj Hnd' (conj _ (conj _ _))); [|lia|].
        -- intros t. rewrite Hmem. cbn [omap list_omap]. rewrite Hctx.
           cbn [fmap option_fmap option_map]. fold title.
           unfold cited_titles. rewrite map_app, elem_of_app, elem_of_cons. simpl.
           rewrite list_elem_of_singleton. tauto.
        -- intros Hold. apply Hall. apply Forall_app. split; [done|].
           constructor; [|constructor]. split; [|reflexivity].
           intros text. cbn [Cited.text]. apply excerpt_length.
    + injection Hstep as <- <-.
      destruct (IH citations seen Hnd Hseen) as (Hnd' & Hmem & Hlen & Hall).
      refine (conj Hnd' (conj _ (conj _ Hall))); [|cbn [length]; lia].
      intros t. rewrite Hmem. cbn [omap list_omap]. rewrite Hctx. done.
Qed.

(** X17: The citations extracted from the grounding chunks of a response
    have pairwise distinct titles, which are exactly the titles of the
    chunks that have a retrieved context (Document for a context without
    a title attribute); there is at most one citation per chunk, each
    text holds at most 303 characters and each source is the knowledge
    base. *)
Theorem extract_citations_distinct (response : Response.t) :
  let citations := _extract_citations response in
  NoDup (cited_titles citations)
  /\ (forall title, title ∈ cited_titles citations <-> title ∈ chunk_titles response)
  /\ (length citations
      <= length (default [] (Response.grounding_chunks response)))%nat
  /\ Forall well_formed citations.
Proof.
  destruct response as [[chunks|]]; unfold _extract_citations;
    cbn [Response.grounding_chunks].
  - destruct (extract_fold chunks [] ∅) as (Hnd & Hmem & Hlen & Hall).
    { constructor. }
    { intros t. cbn. set_solver. }
    cbn zeta. refine (conj Hnd (conj _ (conj Hlen _))).
    + intros t. rewrite Hmem. split; [|by right]. intros [H|?]; [inversion H|done].
    + apply Hall. constructor.
  - cbn. refine (conj _ (conj _ (conj _ _))); try done; try constructor.
Qed.
End GroundingProperties.

(** ** Consolidator: outcomes *)

Section ConsolidatorOutcomeProperties.
Import Executor Consolidator PromptReads ConsolidatorFacts.

Lemma read_scqa_outcome (pyramid : json) :
  returns (read_scqa pyramid) = scqa_readable pyramid.
Proof.
  unfold read_scqa, scqa_readable. destruct pyramid as [| | | | |fields]; try reflexivity.
  rewrite get_obj. cbn [mbind py_bind bind is_obj andb].
  destruct (Spec.field_or (JObj fields) "scqa" (JObj [])); reflexivity.
Qed.

Lemma read_scqa_ret (pyramid : json) :
  scqa_readable pyramid = true -> read_scqa pyramid = Ret tt.
Proof.
  intros H. rewrite <- read_scqa_outcome in H.
  destruct (read_scqa pyramid) as [[]|]; [reflexivity|discriminate].
Qed.

Lemma analysis_of_has (result : Result.t) :
  has_analysis result = true -> analysis_of result = Ret (analysis_or_empty result).
Proof.
  unfold has_analysis, analysis_of, analysis_or_empty.
  destruct (Result.framework_analysis result); [reflexivity|discriminate|reflexivity].
Qed.

Lemma analysis_of_none (result : Result.t) :
  has_analysis result = false -> analysis_of result = Raise attribute_error.
Proof.
  unfold has_analysis, analysis_of.
  destruct (Result.framework_analysis result); [discriminate|reflexivity|discriminate].
Qed.

Lemma collect_ok (framework_results : list Result.t) :
  forallb has_analysis framework_results = true ->
  forall all_insights all_opportunities all_risks,
    collect framework_results (all_insights, all_opportunities, all_risks)
    = Ret (all_insights ++ flat_map insights_of framework_results,
           all_opportunities ++ flat_map opportunities_of framework_results,
           all_risks ++ flat_map risks_of framework_results).
Proof.
  induction framework_results as [|result rest IH]; intros Hall i o r.
  - cbn. by rewrite !app_nil_r.
  - cbn [forallb] in Hall. apply andb_prop in Hall as [Hr Hrest].
    cbn [collect]. rewrite (analysis_of_has _ Hr). cbn [mbind py_bind bind].
    rewrite (IH Hrest). cbn [flat_map]. by rewrite !app_assoc.
Qed.

Lemma collect_raise (framework_results : list Result.t) :
  forallb has_analysis framework_results = false ->
  forall acc, collect framework_results acc = Raise attribute_error.
Proof.
  induction framework_results as [|result rest IH]; intros Hall acc; [discriminate|].
  cbn [forallb] in Hall. cbn [collect].
  destruct (has_analysis result) eqn:Hr.
  - rewrite (analysis_of_has _ Hr). cbn [mbind py_bind bind].
    destruct acc as [[i o] r]. apply IH. exact Hall.
  - rewrite (analysis_of_none _ Hr). reflexivity.
Qed.

Lemma contributions_ok (framework_results : list Result.t) :
  forallb has_analysis framework_results = true ->
  contributions framework_results = Ret (map contribution_of framework_results).
Proof.
  induction framework_results as [|result rest IH]; intros Hall; [reflexivity|].
  cbn [forallb] in Hall. apply andb_prop in Hall as [Hr Hrest].
  cbn [contributions]. rewrite (analysis_of_has _ Hr). cbn [mbind py_bind bind].
  rewrite (IH Hrest). reflexivity.
Qed.

Lemma fallback_consolidation_outcome (framework_results : list Result.t) (e : string) :
  if forallb has_analysis framework_results
  then exists rep,
      _fallback_consolidation framework_results e = Ret rep
      /\ top_insight_texts rep = take 5 (flat_map insights_of framework_results)
      /\ map Opportunity.opportunity (Body.opportunities (Report.consolidated_report rep))
         = take 3 (flat_map opportunities_of framework_results)
      /\ map RiskGap.risk_or_gap (Body.risks_and_gaps (Report.consolidated_report rep))
         = take 3 (flat_map risks_of framework_results)
      /\ Report.framework_contributions rep = map contribution_of framework_results
      /\ Report.all_citations rep = _merge_citations framework_results
      /\ Quality.frameworks_used (Report.analysis_quality rep) = length framework_results
      /\ Quality.total_insights (Report.analysis_quality rep)
         = length (flat_map insights_of framework_results)
      /\ Report._error rep = Some e
  else _fallback_consolidation framework_results e = Raise attribute_error.
Proof.
  destruct (forallb has_analysis framework_results) eqn:Hall.
  - unfold _fallback_consolidation.
    rewrite (collect_ok _ Hall). cbn [mbind py_bind bind app].
    rewrite (contributions_ok _ Hall). cbn [mbind py_bind bind].
    eexists. split; [reflexivity|].
    unfold top_insight_texts.
    cbn [Report.consolidated_report Body.top_insights Body.opportunities
         Body.risks_and_gaps Report.framework_contributions Report.all_citations
         Report.analysis_quality Quality.frameworks_used Quality.total_insights
         Report._error].
    rewrite !map_map. cbn [TopInsight.insight Opportunity.opportunity RiskGap.risk_or_gap].
    rewrite !map_id. split_and!; reflexivity.
  - unfold _fallback_consolidation. rewrite (collect_raise _ Hall). reflexivity.
Qed.



Lemma consolidate_reading_readable (pyramid : json)
  (framework_results : list Result.t) (u : upstream) :
  scqa_readable pyramid = true ->
  consolidate_reading pyramid framework_results u = consolidate framework_results u.
Proof.
  intros H. unfold consolidate_reading. rewrite (read_scqa_ret _ H).
  by destruct framework_results as [|? [|? ?]].
Qed.



End ConsolidatorOutcomeProperties.

(** ** Execution followed by consolidation *)

Section PipelineProperties.
Import Executor Consolidator PromptReads ConsolidatorFacts Pipeline.

Lemma execute_has_analysis (framework_id : string) (u : Executor.upstream) :
  has_analysis (execute framework_id u) = in_catalog framework_id && answer_has_analysis u.
Proof.
  unfold execute, in_catalog.
  destruct (Frameworks.ALL_FRAMEWORKS !! framework_id) as [framework|] eqn:Hfw.
  - rewrite bool_decide_eq_true_2 by eauto. destruct u; reflexivity.
  - rewrite bool_decide_eq_false_2 by (intros [? ?]; discriminate). reflexivity.
Qed.

Lemma execute_failed_insights (framework_id : string) (e : string) :
  in_catalog framework_id = true ->
  exists insight,
    insights_of (execute framework_id (Executor.Raised e)) = [insight]
    /\ opportunities_of (execute framework_id (Executor.Raised e))
       = ["Further analysis recommended"]
    /\ citations_of (execute framework_id (Executor.Raised e)) = [].
Proof.
  unfold in_catalog, execute. intros H. apply bool_decide_eq_true in H as [framework ->].
  eexists. split_and!; reflexivity.
Qed.

Lemma results_readable (pyramid : json) (requests : list (string * Executor.upstream)) :
  scqa_readable pyramid = true ->
  omap (fun request =>
          match execute_reading pyramid request.1 request.2 with
          | Ret result => Some result
          | Raise _ => None
          end) requests
  = map (fun request => execute request.1 request.2) requests.
Proof.
  intros Hread. induction requests as [|request requests IH]; [reflexivity|].
  cbn [omap list_omap map]. rewrite <- IH. unfold execute_reading.
  rewrite (read_scqa_ret _ Hread). destruct (in_catalog request.1); reflexivity.
Qed.



Lemma merge_no_citations (framework_results : list Result.t) :
  Forall (fun r => citations_of r = []) framework_results ->
  _merge_citations framework_results = [].
Proof.
  intros H. unfold _merge_citations.
  assert (Hfold : foldl result_step ([], ∅) framework_results = ([], ∅)).
  { induction H as [|r rs Hr _ IH]; [reflexivity|].
    cbn [foldl]. unfold result_step at 2. unfold citations_of in Hr. rewrite Hr.
    exact IH. }
  by rewrite Hfold.
Qed.

(** X21: When the context analysis is readable, every selected framework is
    in the catalog and every inference call fails, two or more executions
    and the consolidation included, the framework step still ends with a
    report: it counts one insight per framework, shows at most five of
    them and at most three opportunities, has no citation, and records
    the consolidation error. *)
Theorem run_frameworks_all_failing (pyramid_analysis : json)
  (framework_ids : list string) (errors : string -> string) (e : string) :
  scqa_readable pyramid_analysis = true ->
  (2 <= length framework_ids)%nat ->
  forallb in_catalog framework_ids = true ->
  exists rep,
    run_frameworks pyramid_analysis
      (map (fun fid => (fid, Executor.Raised (errors fid))) framework_ids) (Raised e)
    = Some (Ret rep)
    /\ Quality.frameworks_used (Report.analysis_quality rep) = length framework_ids
    /\ Quality.total_insights (Report.analysis_quality rep) = length framework_ids
    /\ length (top_insight_texts rep) = (length framework_ids `min` 5)%nat
    /\ map Opportunity.opportunity (Body.opportunities (Report.consolidated_report rep))
       = replicate (length framework_ids `min` 3) "Further analysis recommended"
    /\ Report.all_citations rep = []
    /\ Report._error rep = Some e.
Proof.
  intros Hread Hlen Hall. unfold run_frameworks.
  rewrite (results_readable _ _ Hread), map_map. cbn [fst snd].
  set (results := map (fun fid => execute fid (Executor.Raised (errors fid))) framework_ids).
  assert (Hres : forallb has_analysis results = true).
  { subst results. clear Hlen. induction framework_ids as [|fid fids IH]; [reflexivity|].
    cbn [forallb] in Hall. apply andb_prop in Hall as [Hfid Hfids].
    cbn [map forallb]. rewrite execute_has_analysis, Hfid, (IH Hfids). reflexivity. }
  assert (Hins : length (flat_map insights_of results) = length framework_ids
                 /\ flat_map opportunities_of results
                    = replicate (length framework_ids) "Further analysis recommended"
                 /\ Forall (fun r => citations_of r = []) results).
  { subst results. clear Hlen Hres. induction framework_ids as [|fid fids IH].
    - split_and!; [reflexivity|reflexivity|constructor].
    - cbn [forallb] in Hall. apply andb_prop in Hall as [Hfid Hfids].
      destruct (IH Hfids) as (IH1 & IH2 & IH3).
      destruct (execute_failed_insights fid (errors fid) Hfid) as (insight & Hi & Ho & Hc).
      cbn [map flat_map]. rewrite Hi, Ho, IH2. cbn [app length replicate].
      rewrite IH1. split_and!; [reflexivity|reflexivity|by constructor]. }
  destruct Hins as (Hins & Hopp & Hcit).
  pose proof (fallback_consolidation_outcome results e) as H. rewrite Hres in H.
  destruct H as (rep & Hrep & Hi & Ho & _ & _ & Hc & Hu & Ht & He).
  assert (Hlen' : length results = length framework_ids)
    by (subst results; apply length_map).
  exists rep. split.
  { rewrite (consolidate_reading_readable _ _ _ Hread).
    destruct results as [|r1 [|r2 rest]]; [cbn in Hlen'; lia..|].
    f_equal. exact Hrep. }
  split_and!.
  - by rewrite Hu.
  - by rewrite Ht.
  - rewrite Hi, length_take, Hins. lia.
  - rewrite Ho, Hopp, take_replicate. f_equal. lia.
  - rewrite Hc. by apply merge_no_citations.
  - exact He.
Qed.

(** Two catalog frameworks whose executions time out. *)
Lemma run_frameworks_all_failing_witness :
  exists rep,
    run_frameworks Minto._default_pyramid
      [("root_cause_analysis", Executor.Raised "deadline exceeded");
       ("scenario_planning", Executor.Raised "deadline exceeded")]
      (Raised "quota exceeded") = Some (Ret rep)
    /\ Quality.total_insights (Report.analysis_quality rep) = 2%nat
    /\ Report.all_citations rep = [].
Proof.
  destruct (run_frameworks_all_failing Minto._default_pyramid
              ["root_cause_analysis"; "scenario_planning"]
              (fun _ => "deadline exceeded") "quota exceeded")
    as (rep & Hrep & _ & Htotal & _ & _ & Hcit & _).
  - reflexivity.
  - cbn [length]. lia.
  - vm_compute. reflexivity.
  - exists rep. split; [exact Hrep|]. split; [exact Htotal|exact Hcit].
Defined.
End PipelineProperties.

(** ** Recommendation followed by execution *)

Section RecommendedExecutionProperties.
Import Recommender RecommenderFacts Pipeline ConsolidatorFacts.

(** X22: The failure path of the recommender can recommend a framework that
    the rest of the pipeline cannot run: when the first of the first four
    detected signals that the signal table knows is mapped to an id
    outside the catalog, the framework step on the primary recommendation
    alone ends with the consolidation raising, whatever the context
    analysis and whatever the inference calls return. *)
Theorem fallback_primary_outside_catalog
  (pyramid : Pyramid.t) (e : string) (fid : string) (pyramid_analysis : json)
  (eu : Executor.upstream) (cu : Consolidator.upstream) :
  head (omap table_id (take 4 (default [] (Pyramid.detected_signals pyramid)))) = Some fid ->
  in_catalog fid = false ->
  run_frameworks pyramid_analysis
    [(Selection.primary_recommendation (recommend pyramid (Raised e)), eu)] cu
  = Some (Raise attribute_error).
Proof.
  intros Hhead Hcat.
  rewrite fallback_primary_eq, Hhead.
  change (default "root_cause_analysis" (Some fid)) with fid.
  unfold run_frameworks. cbn [omap list_omap fst snd].
  unfold execute_reading. rewrite Hcat. cbn [consolidate_reading].
  cbn [Consolidator.consolidate]. unfold Consolidator._single_framework_report.
  rewrite analysis_of_none; [reflexivity|].
  rewrite execute_has_analysis, Hcat. reflexivity.
Qed.

(** The signal strategic_choice leads to decision_trees, which the
    catalog does not have. *)
Lemma fallback_primary_outside_catalog_witness :
  run_frameworks Minto._default_pyramid
    [(Selection.primary_recommendation
        (recommend Examples.strategic_choice (Raised "quota exceeded")),
      Executor.Raised "deadline exceeded")]
    (Consolidator.Raised "quota exceeded")
  = Some (Raise attribute_error).
Proof.
  apply (fallback_primary_outside_catalog Examples.strategic_choice "quota exceeded"
           "decision_trees").
  - vm_compute. reflexivity.
  - vm_compute. reflexivity.
Defined.
End RecommendedExecutionProperties.

(** ** Research agent: queries, sources and synthesis *)

Section ResearchFlowProperties.
Import Research Text ResearchFlow.

Lemma execute_searches_queries (tavily_api_key : option string)
  (post : string -> http) (queries : list string) :
  map SearchResult.query (_execute_searches tavily_api_key post queries) = queries.
Proof.
  unfold _execute_searches. destruct (negb (configured tavily_api_key)).
  - rewrite map_map. apply map_id.
  - rewrite map_map. rewrite <- (map_id queries) at 2. apply map_ext. intros q.
    unfold search_one. destruct (post _) as [e|status body]; [reflexivity|].
    destruct (status =? 200)%nat; [|reflexivity].
    destruct body as [data|msg]; [|reflexivity].
    cbn [mbind py_bind bind].
    destruct (get data "answer" (JStr "")); [|reflexivity]. cbn [mbind py_bind bind].
    destruct (get data "results" (JArr [])); reflexivity.
Qed.

(** X23: [research] sends the provider at most seven queries, the first seven
    of the decoded list, and exactly five when the query generation
    fails; there is one search entry per query, in the order of the
    queries. *)
Theorem research_search_budget (tavily_api_key : option string)
  (post : string -> http) (context : Context.t) (u : queries_upstream) :
  let queries := _generate_queries context u in
  let search_results := _execute_searches tavily_api_key post queries in
  map SearchResult.query search_results = queries
  /\ (length search_results <= 7)%nat
  /\ (u = QueriesRaised -> length search_results = 5%nat)
  /\ (forall decoded, u = QueriesParsed decoded -> queries = take 7 decoded).
Proof.
  cbn zeta. pose proof (execute_searches_queries tavily_api_key post
                          (_generate_queries context u)) as Hq.
  assert (Hlen : length (_execute_searches tavily_api_key post (_generate_queries context u))
                 = length (_generate_queries context u)).
  { rewrite <- Hq at 2. by rewrite length_map. }
  split_and!.
  - exact Hq.
  - rewrite Hlen. destruct u as [|qs]; cbn [_generate_queries length]; [lia|].
    rewrite length_take. lia.
  - intros ->. rewrite Hlen. reflexivity.
  - intros decoded ->. reflexivity.
Qed.

Lemma slice_length (n : nat) (v content : json) :
  slice n v = Ret content -> (content_length content <= n)%nat.
Proof.
  destruct v; try discriminate; intros [= <-]; cbn [content_length].
  - apply take_str_length.
  - rewrite length_take. lia.
Qed.

Lemma source_of_fields (i : nat) (query : string) (result : json) (source : Source.t) :
  source_of i query result = Ret source ->
  Source.index source = i /\ Source.query source = query
  /\ (content_length (Source.content source) <= 800)%nat.
Proof.
  unfold source_of. intros H.
  destruct (get result "content" (JStr "")) as [fallback|]; [|discriminate].
  cbn [mbind py_bind bind] in H.
  destruct (get result "raw_content" fallback) as [raw|]; [|discriminate].
  cbn [mbind py_bind bind] in H.
  destruct (slice 800 raw) as [content|] eqn:Hslice; [|discriminate].
  cbn [mbind py_bind bind] in H.
  destruct (get result "title" (JStr "Source")) as [title|]; [|discriminate].
  cbn [mbind py_bind bind] in H.
  destruct (get result "url" (JStr "")) as [url|]; [|discriminate].
  cbn [mbind py_bind bind] in H. injection H as <-.
  cbn [Source.index Source.query Source.content]. split_and!; try reflexivity.
  by apply slice_length in Hslice.
Qed.

Lemma hits_loop_numbered (query : string) (results : list json) :
  forall st st',
    numbered st -> hits_loop query results st = Ret st' ->
    numbered st'
    /\ length st'.2 = (length st.2 + length results)%nat
    /\ map Source.query st'.2 = map Source.query st.2 ++ replicate (length results) query.
Proof.
  induction results as [|result rest IH]; intros st st' Hst H.
  - injection H as <-. cbn [length replicate]. rewrite app_nil_r.
    split_and!; [exact Hst|lia|reflexivity].
  - cbn [hits_loop] in H.
    destruct (source_of st.1 query result) as [source|] eqn:Hsrc; [|discriminate].
    cbn [mbind py_bind bind] in H.
    destruct (source_of_fields _ _ _ _ Hsrc) as (Hi & Hq & Hc).
    destruct Hst as (Hnext & Hidx & Hall).
    apply IH in H as (Hst' & Hlen & Hqs).
    + split; [exact Hst'|]. cbn [fst snd] in *. rewrite length_app in Hlen.
      cbn [length] in *. split; [lia|].
      rewrite Hqs, map_app. cbn [map replicate]. rewrite Hq, <- app_assoc. reflexivity.
    + unfold numbered. cbn [fst snd]. rewrite length_app, map_app. cbn [length map].
      split_and!.
      * lia.
      * rewrite Hidx, Hi, Hnext, Nat.add_1_r, seq_S. reflexivity.
      * apply Forall_app. split; [exact Hall|]. by apply Forall_singleton.
Qed.

Lemma source_of_needs_dict (i : nat) (query : string) (result : json) :
  is_obj result = false -> returns (source_of i query result) = false.
Proof. destruct result; try reflexivity. discriminate. Qed.

Lemma iterate_hits (sr : SearchResult.t) (results : list json) (query : string)
  (st st' : nat * list Source.t) :
  iterate (SearchResult.results sr) = Ret results ->
  hits_loop query results st = Ret st' ->
  results = hits sr.
Proof.
  unfold hits. destruct (SearchResult.results sr) as [| | |s|items|fields];
    try discriminate; intros [= <-] Hloop; [|reflexivity|].
  - destruct s as [|c s]; [reflexivity|]. exfalso. cbn [list_ascii_of_string map] in Hloop.
    cbn [hits_loop] in Hloop.
    pose proof (source_of_needs_dict st.1 query (JStr (String c EmptyString)) eq_refl) as Hr.
    destruct (source_of _ _ _); discriminate.
  - destruct fields as [|[k v] fields]; [reflexivity|]. exfalso. cbn [map fst] in Hloop.
    cbn [hits_loop] in Hloop.
    pose proof (source_of_needs_dict st.1 query (JStr k) eq_refl) as Hr.
    destruct (source_of _ _ _); discriminate.
Qed.

Lemma sources_loop_numbered (search_results : list SearchResult.t) :
  forall st st',
    numbered st -> sources_loop search_results st = Ret st' ->
    numbered st'
    /\ map Source.query st'.2
       = map Source.query st.2
         ++ flat_map (fun sr => replicate (length (hits sr)) (SearchResult.query sr))
              search_results.
Proof.
  induction search_results as [|sr rest IH]; intros st st' Hst H.
  - injection H as <-. split; [exact Hst|]. cbn. by rewrite app_nil_r.
  - cbn [sources_loop] in H.
    destruct (iterate (SearchResult.results sr)) as [results|] eqn:Hit; [|discriminate].
    cbn [mbind py_bind bind] in H.
    destruct (hits_loop (SearchResult.query sr) results st) as [st1|] eqn:Hhits;
      [|discriminate].
    cbn [mbind py_bind bind] in H.
    destruct (hits_loop_numbered _ _ _ _ Hst Hhits) as (Hst1 & Hlen1 & Hq1).
    destruct (IH _ _ Hst1 H) as (Hst' & Hqs).
    split; [exact Hst'|].
    rewrite Hqs, Hq1, <- app_assoc, (iterate_hits _ _ _ _ _ Hit Hhits). reflexivity.
Qed.

(** X24: When the numbering loop of [_synthesize_findings] completes, the
    sources are numbered 1, 2, ... without gap in the order of the
    searches and of the hits of each search, there is one source per hit,
    carrying the query of its search, and no content is longer than
    800. *)
Theorem collect_sources_numbering
  (search_results : list SearchResult.t) (sources : list Source.t) :
  collect_sources search_results = Ret sources ->
  map Source.index sources = seq 1 (length sources)
  /\ map Source.query sources
     = flat_map (fun sr => replicate (length (hits sr)) (SearchResult.query sr))
         search_results
  /\ Forall (fun s => content_length (Source.content s) <= 800)%nat sources.
Proof.
  unfold collect_sources. intros H.
  destruct (sources_loop search_results (1%nat, [])) as [st|] eqn:Hloop; [|discriminate].
  injection H as <-.
  destruct (sources_loop_numbered search_results (1%nat, []) st) as (Hst & Hq).
  { split_and!; [reflexivity|reflexivity|constructor]. }
  { exact Hloop. }
  destruct Hst as (_ & Hidx & Hall). split_and!; [exact Hidx|exact Hq|exact Hall].
Qed.

(** Two hits are numbered 1 and 2. *)
Lemma collect_sources_numbering_witness :
  exists sources,
    collect_sources [Examples.two_hits] = Ret sources
    /\ map Source.index sources = [1; 2]%nat.
Proof.
  destruct (collect_sources [Examples.two_hits]) as [sources|] eqn:Hcollect;
    [|vm_compute in Hcollect; discriminate].
  exists sources. split; [reflexivity|].
  destruct (collect_sources_numbering [Examples.two_hits] sources Hcollect)
    as (Hidx & _ & _).
  rewrite Hidx. vm_compute in Hcollect. injection Hcollect as <-. reflexivity.
Defined.

Lemma sources_loop_no_hits (search_results : list SearchResult.t) :
  Forall (fun sr => SearchResult.results sr = JArr []) search_results ->
  forall st, sources_loop search_results st = Ret st.
Proof.
  induction 1 as [|sr rest Hsr _ IH]; intros st; [reflexivity|].
  cbn [sources_loop]. rewrite Hsr. cbn [iterate mbind py_bind bind hits_loop]. apply IH.
Qed.

Lemma search_one_failed_or_page (post : string -> http) (query : string) :
  (SearchResult.error (search_one post query) = None)
  \/ SearchResult.results (search_one post query) = JArr [].
Proof.
  unfold search_one. destruct (post _) as [e|status body]; [by right|].
  destruct (status =? 200)%nat; [|by right].
  destruct body as [data|msg]; [|by right]. cbn [mbind py_bind bind].
  destruct (get data "answer" (JStr "")); [|by right]. cbn [mbind py_bind bind].
  destruct (get data "results" (JArr [])); [by left|by right].
Qed.

(** X25: Searches that failed leave no trace in the synthesis: when every
    search entry carries an error, as all do when no API key is
    configured, [_synthesize_findings] returns what it returns for no
    search at all; it has no source, and on the failure path its summary
    counts zero sources and its citation table is empty. *)
Theorem failed_searches_leave_no_trace
  (tavily_api_key : option string) (post : string -> http) (queries : list string)
  (context : Context.t) (u : synthesis_upstream) :
  let search_results := _execute_searches tavily_api_key post queries in
  Forall (fun sr => SearchResult.error sr <> None) search_results ->
  _synthesize_findings context search_results u = _synthesize_findings context [] u
  /\ exists result,
      _synthesize_findings context search_results u = Ret result
      /\ raw_sources_of result = []
      /\ forall report,
          result = Fallback report ->
          FallbackReport.citation_table report = []
          /\ FallbackReport.executive_summary report
             = "Found 0 relevant sources. Review the citation table for detailed findings.".
Proof.
  cbn zeta. intros Herr.
  assert (Hnone : Forall (fun sr => SearchResult.results sr = JArr [])
                         (_execute_searches tavily_api_key post queries)).
  { revert Herr. unfold _execute_searches. destruct (negb (configured tavily_api_key)).
    - intros _. apply Forall_fmap. by apply Forall_true.
    - rewrite !Forall_fmap. intros Herr. eapply Forall_impl; [exact Herr|].
      intros q Hq. unfold compose in *.
      destruct (search_one_failed_or_page post q) as [H|H]; [done|exact H]. }
  assert (Hcollect : collect_sources (_execute_searches tavily_api_key post queries)
                     = Ret []).
  { unfold collect_sources. rewrite (sources_loop_no_hits _ Hnone). reflexivity. }
  unfold _synthesize_findings. rewrite Hcollect. split; [reflexivity|].
  cbn [mbind py_bind bind]. destruct u as [e|fields].
  - eexists. split; [reflexivity|]. split; [reflexivity|].
    intros report [= <-]. split; reflexivity.
  - eexists. split; [reflexivity|]. split; [reflexivity|]. intros report [=].
Qed.

(** Without a key, one query gives the synthesis of no search. *)
Lemma failed_searches_leave_no_trace_witness :
  _synthesize_findings Examples.context
    (_execute_searches None (fun _ => HttpRaised "unreachable") ["enterprise churn"])
    (SynthesisRaised "quota exceeded")
  = _synthesize_findings Examples.context [] (SynthesisRaised "quota exceeded").
Proof.
  apply (failed_searches_leave_no_trace None (fun _ => HttpRaised "unreachable")
           ["enterprise churn"] Examples.context (SynthesisRaised "quota exceeded")).
  repeat constructor. discriminate.
Defined.

Lemma hits_loop_raises (query : string) (results : list json) (result : json) :
  result ∈ results ->
  (forall i, returns (source_of i query result) = false) ->
  forall st, returns (hits_loop query results st) = false.
Proof.
  intros Hin Hraise. induction results as [|r rest IH]; intros st; [inversion Hin|].
  cbn [hits_loop].
  destruct (source_of st.1 query r) as [source|] eqn:Hsrc; [|reflexivity].
  cbn [mbind py_bind bind]. apply elem_of_cons in Hin as [->|Hin].
  - specialize (Hraise st.1). rewrite Hsrc in Hraise. discriminate.
  - apply IH, Hin.
Qed.

Lemma sources_loop_raises (search_results : list SearchResult.t)
  (sr : SearchResult.t) (items : list json) (result : json) :
  sr ∈ search_results ->
  SearchResult.results sr = JArr items ->
  result ∈ items ->
  (forall i, returns (source_of i (SearchResult.query sr) result) = false) ->
  forall st, returns (sources_loop search_results st) = false.
Proof.
  intros Hin Hres Hitem Hraise.
  induction search_results as [|sr0 rest IH]; intros st; [inversion Hin|].
  cbn [sources_loop].
  destruct (iterate (SearchResult.results sr0)) as [results|] eqn:Hit; [|reflexivity].
  cbn [mbind py_bind bind].
  destruct (hits_loop (SearchResult.query sr0) results st) as [st1|] eqn:Hhits;
    [|reflexivity].
  cbn [mbind py_bind bind]. apply elem_of_cons in Hin as [<-|Hin].
  - rewrite Hres in Hit. injection Hit as <-.
    pose proof (hits_loop_raises _ _ _ Hitem Hraise st) as Hr.
    rewrite Hhits in Hr. discriminate.
  - apply IH, Hin.
Qed.

Lemma field_or_present (fields : list (string * json)) (k : string) (v d : json) :
  assoc k fields = Some v -> Spec.field_or (JObj fields) k d = v.
Proof. intros H. unfold Spec.field_or. cbn [at_path]. by rewrite H. Qed.

(** X26: A hit whose [raw_content] is present and holds [null], a number or a
    Boolean cannot be sliced: the numbering loop raises before the [try]
    block is entered, so [_synthesize_findings] raises whatever the
    inference call would have answered, and so does [research]. *)
Theorem unsliceable_content_raises
  (context : Context.t) (search_results : list SearchResult.t)
  (sr : SearchResult.t) (items : list json) (fields : list (string * json))
  (raw : json) (u : synthesis_upstream) :
  sr ∈ search_results ->
  SearchResult.results sr = JArr items ->
  JObj fields ∈ items ->
  assoc "raw_content" fields = Some raw ->
  returns (slice 800 raw) = false ->
  returns (_synthesize_findings context search_results u) = false.
Proof.
  intros Hin Hres Hitem Hraw Hslice.
  unfold _synthesize_findings, collect_sources.
  assert (Hr : returns (sources_loop search_results (1%nat, [])) = false).
  2: { destruct (sources_loop search_results (1%nat, [])); [discriminate|reflexivity]. }
  apply (sources_loop_raises search_results sr items (JObj fields) Hin Hres Hitem).
  intros i. unfold source_of.
  cbn [get mbind py_bind bind]. rewrite Hraw.
  destruct (slice 800 raw); [discriminate|reflexivity].
Qed.

(** A hit with a null [raw_content] makes the synthesis raise. *)
Lemma unsliceable_content_raises_witness :
  returns (_synthesize_findings Examples.context [Examples.null_raw_content]
             (SynthesisParsed [])) = false.
Proof.
  apply (unsliceable_content_raises Examples.context [Examples.null_raw_content]
           Examples.null_raw_content
           [JObj [("title", JStr "Churn benchmarks");
                  ("content", JStr "Median churn is 5%.");
                  ("raw_content", JNull)]]
           [("title", JStr "Churn benchmarks");
            ("content", JStr "Median churn is 5%.");
            ("raw_content", JNull)]
           JNull (SynthesisParsed [])).
  - set_solver.
  - reflexivity.
  - set_solver.
  - reflexivity.
  - reflexivity.
Defined.

Lemma rows_spec (sources : list Source.t) :
  Forall (fun s => exists text, Source.content s = JStr text) sources ->
  forall i,
  exists table,
    rows i sources = Ret table
    /\ map Row.rank table = seq (i + 1) (length sources)
    /\ map Row.title table = map Source.title sources
    /\ map Row.url table = map Source.url sources
    /\ Forall (fun row => (String.length (Row.key_quote row) <= 153)%nat
                          /\ Row.stance row = "nuances") table.
Proof.
  induction 1 as [|s rest [text Hs] _ IH]; intros i.
  - exists []. split_and!; try reflexivity. constructor.
  - destruct (IH (S i)) as (table & Ht & Hrank & Htitle & Hurl & Hall).
    cbn [rows]. rewrite Hs. cbn [key_quote_of mbind py_bind bind]. rewrite Ht.
    cbn [mbind py_bind bind]. eexists. split; [reflexivity|].
    cbn [map length seq Row.rank Row.title Row.url].
    rewrite Hrank, Htitle, Hurl. split_and!; try reflexivity.
    constructor; [|exact Hall]. cbn [Row.key_quote Row.stance].
    split; [|reflexivity]. rewrite append_length.
    pose proof (take_str_length 150 text). cbn [String.length]. lia.
Qed.

(** X27: The failure path of [_synthesize_findings] on sources whose contents
    are strings: the citation table lists the first eight sources in the
    order they were found, ranked 1, 2, ..., each with a quote of at most
    153 characters and the stance nuances; the summary counts all the
    sources, the report keeps all of them and records the error. *)
Theorem fallback_synthesis_table
  (context : Context.t) (search_results : list SearchResult.t)
  (sources : list Source.t) (e : string) :
  collect_sources search_results = Ret sources ->
  Forall (fun s => exists text, Source.content s = JStr text) sources ->
  exists report,
    _synthesize_findings context search_results (SynthesisRaised e)
    = Ret (Fallback report)
    /\ map Row.rank (FallbackReport.citation_table report)
       = seq 1 (length sources `min` 8)
    /\ map Row.title (FallbackReport.citation_table report)
       = map Source.title (take 8 sources)
    /\ Forall (fun row => (String.length (Row.key_quote row) <= 153)%nat
                          /\ Row.stance row = "nuances")
              (FallbackReport.citation_table report)
    /\ FallbackReport.raw_sources report = sources
    /\ FallbackReport.executive_summary report
       = "Found " +:+ pretty (length sources)
         +:+ " relevant sources. Review the citation table for detailed findings."
    /\ FallbackReport._error report = e.
Proof.
  intros Hcollect Hstr. unfold _synthesize_findings. rewrite Hcollect.
  cbn [mbind py_bind bind]. unfold _fallback_synthesis.
  destruct (rows_spec (take 8 sources) (Forall_take _ 8 _ Hstr) 0)
    as (table & -> & Hrank & Htitle & _ & Hall).
  cbn [mbind py_bind bind fmap py_fmap]. eexists. split; [reflexivity|].
  cbn [FallbackReport.citation_table FallbackReport.raw_sources
       FallbackReport.executive_summary FallbackReport._error].
  split_and!; try reflexivity; try assumption.
  rewrite Hrank, length_take. f_equal. lia.
Qed.

(** The two hits on the failure path: ranks 1 and 2. *)
Lemma fallback_synthesis_table_witness :
  exists report,
    _synthesize_findings Examples.context [Examples.two_hits]
      (SynthesisRaised "quota exceeded") = Ret (Fallback report)
    /\ map Row.rank (FallbackReport.citation_table report) = [1; 2]%nat.
Proof.
  destruct (collect_sources [Examples.two_hits]) as [sources|] eqn:Hcollect;
    [|vm_compute in Hcollect; discriminate].
  destruct (fallback_synthesis_table Examples.context [Examples.two_hits] sources
              "quota exceeded" Hcollect)
    as (report & Hreport & Hrank & _).
  - vm_compute in Hcollect. injection Hcollect as <-.
    repeat constructor; eexists; reflexivity.
  - exists report. split; [exact Hreport|]. rewrite Hrank.
    vm_compute in Hcollect. injection Hcollect as <-. reflexivity.
Defined.

Lemma analyze_context_outcome (diagnosis : json) (u : context_upstream) :
  returns (_analyze_context diagnosis u)
  = is_obj diagnosis && is_obj (Spec.field_or diagnosis "profile" (JObj [])).
Proof.
  unfold _analyze_context. destruct diagnosis as [| | | | |fields]; try reflexivity.
  rewrite get_obj. cbn [mbind py_bind bind is_obj andb].
  destruct (Spec.field_or (JObj fields) "profile" (JObj [])); reflexivity.
Qed.

(** X28: Without an API key [research] returns exactly when the diagnosis is
    a dict whose [profile], if present, is a dict, the two values read
    before the first [try] block; what it returns has no source, whatever
    the three inference calls answer. *)
Theorem research_without_key
  (tavily_api_key : option string) (post : string -> http) (diagnosis : json)
  (u_context : context_upstream) (u_queries : queries_upstream)
  (u_synthesis : synthesis_upstream) :
  configured tavily_api_key = false ->
  let outcome :=
    research tavily_api_key post diagnosis u_context u_queries u_synthesis in
  returns outcome
  = is_obj diagnosis && is_obj (Spec.field_or diagnosis "profile" (JObj []))
  /\ forall result, outcome = Ret result -> raw_sources_of result = [].
Proof.
  intros Hkey. cbn zeta. unfold research.
  pose proof (analyze_context_outcome diagnosis u_context) as Hctx.
  destruct (_analyze_context diagnosis u_context) as [context|msg];
    cbn [mbind py_bind bind]; [|split; [exact Hctx|discriminate]].
  rewrite <- Hctx. clear Hctx.
  assert (Hcollect :
            collect_sources
              (_execute_searches tavily_api_key post (_generate_queries context u_queries))
            = Ret []).
  { unfold collect_sources. rewrite sources_loop_no_hits; [reflexivity|].
    unfold _execute_searches. rewrite Hkey. cbn [negb].
    apply Forall_fmap. by apply Forall_true. }
  unfold _synthesize_findings. rewrite Hcollect. cbn [mbind py_bind bind].
  destruct u_synthesis as [e|fields].
  - split; [reflexivity|]. intros result [= <-]. reflexivity.
  - split; [reflexivity|]. intros result [= <-]. reflexivity.
Qed.

(** Without a key and with an empty diagnosis, [research] returns. *)
Lemma research_without_key_witness :
  returns (research None (fun _ => HttpRaised "unreachable") (JObj [])
             ContextRaised QueriesRaised (SynthesisRaised "quota exceeded")) = true.
Proof.
  destruct (research_without_key None (fun _ => HttpRaised "unreachable") (JObj [])
              ContextRaised QueriesRaised (SynthesisRaised "quota exceeded") eq_refl)
    as [Hreturns _].
  rewrite Hreturns. reflexivity.
Defined.
End ResearchFlowProperties.
